(** * Redirect rules of readthedocs: matching and path rewriting

    A shallow embedding of [readthedocs/redirects/models.py] (the
    [Redirect] model: [save], [get_full_path], [get_redirect_path] and the
    five [redirect_<type>] methods), together with the Python string and
    [re] primitives those methods call, and the properties of the
    redirect engine proved over it.  The webhook integrations of
    [readthedocs/integrations/models.py] that work on plain data (the
    limit on stored exchanges, the token of the generic webhook, the
    [can_sync] checks) follow. *)

From Stdlib Require Import Bool Arith ZArith Lia List Permutation Ascii String.
Import ListNotations.
Open Scope list_scope.
Open Scope string_scope.

(** ** Exceptions and results

    A call either returns a value or raises.  [PatternNotModelled] stands
    for a regular expression that uses syntax outside the fragment of
    Python's [re] modelled below; no pattern of the program does. *)
Inductive exn : Type :=
| AttributeError (name : string)
| TypeErrorNotCallable (name : string)
| ValueError (message : string)
| IndexError (message : string)
| PatternNotModelled (pattern : string).

Inductive outcome (A : Type) : Type :=
| Return (a : A)
| Raise (e : exn).

Arguments Return {A} a.
Arguments Raise {A} e.

Definition bind {A B : Type} (c : outcome A) (k : A -> outcome B) : outcome B :=
  match c with
  | Return a => k a
  | Raise e => Raise e
  end.

Notation "x <- c ;; k" := (bind c (fun x => k))
  (at level 61, c at next level, right associativity).

(** ** Python [str] primitives

    A [str] is modelled as a [string], a sequence of characters of an
    8-bit alphabet; every primitive below follows the behaviour of the
    CPython method named in its comment. *)
Module PyStr.

(** [s.startswith(p)] *)
Fixpoint startswith (s p : string) : bool :=
  match p with
  | EmptyString => true
  | String a p' =>
      match s with
      | EmptyString => false
      | String b s' => Ascii.eqb a b && startswith s' p'
      end
  end.

(** [s[n:]] for a non-negative [n] *)
Fixpoint slice_from (n : nat) (s : string) : string :=
  match n with
  | O => s
  | S k => match s with
           | EmptyString => EmptyString
           | String _ s' => slice_from k s'
           end
  end.

(** [s.endswith(e)]: CPython compares the last [len(e)] characters of [s]
    with [e], and answers [False] when [s] is shorter than [e]. *)
Definition endswith (s e : string) : bool :=
  (length e <=? length s)%nat && (slice_from (length s - length e) s =? e).

(** [sub in s] *)
Fixpoint contains (sub s : string) : bool :=
  startswith s sub ||
  match s with
  | EmptyString => false
  | String _ s' => contains sub s'
  end.

(** [c in chars] for a single character *)
Fixpoint mem_char (c : ascii) (chars : string) : bool :=
  match chars with
  | EmptyString => false
  | String d chars' => Ascii.eqb c d || mem_char c chars'
  end.

(** [s.lstrip(chars)]: drops every leading character that is in [chars]. *)
Fixpoint lstrip (chars s : string) : string :=
  match s with
  | EmptyString => EmptyString
  | String c s' => if mem_char c chars then lstrip chars s' else s
  end.

(** The [count] argument of [replace] and the [maxsplit] argument of
    [split]: [None] is the default (no limit), [Some k] allows [k] more. *)
Definition budget := option nat.

Definition exhausted (b : budget) : bool :=
  match b with Some O => true | _ => false end.

Definition spend (b : budget) : budget :=
  match b with Some k => Some (pred k) | None => None end.

(** [s.replace("", new, count)]: [new] is inserted before each character
    and after the last one, as long as the count allows. *)
Fixpoint interleave (new : string) (count : budget) (s : string) : string :=
  if exhausted count then s
  else new ++ match s with
              | EmptyString => EmptyString
              | String c s' => String c (interleave new (spend count) s')
              end.

(** The left-to-right scan of [s.replace(old, new, count)] for a non-empty
    [old]; [skip] counts the characters of the occurrence just replaced
    that are still to be passed over. *)
Fixpoint replace_scan (old new : string) (count : budget) (skip : nat)
         (s : string) : string :=
  match s with
  | EmptyString => EmptyString
  | String c s' =>
      match skip with
      | S k => replace_scan old new count k s'
      | O =>
          if exhausted count then s
          else if startswith s old
               then new ++ replace_scan old new (spend count) (pred (length old)) s'
               else String c (replace_scan old new count 0 s')
      end
  end.

(** [s.replace(old, new, count)] *)
Definition replace (s old new : string) (count : budget) : string :=
  match old with
  | EmptyString => interleave new count s
  | String _ _ => replace_scan old new count 0 s
  end.

(** The scan of [s.split(sep, maxsplit)] for a non-empty [sep]: [cur] is
    the piece being collected. *)
Fixpoint split_scan (sep : string) (maxsplit : budget) (skip : nat)
         (cur : string) (s : string) : list string :=
  match s with
  | EmptyString => [cur]
  | String c s' =>
      match skip with
      | S k => split_scan sep maxsplit k cur s'
      | O =>
          if negb (exhausted maxsplit) && startswith s sep
          then cur :: split_scan sep (spend maxsplit) (pred (length sep)) "" s'
          else split_scan sep maxsplit 0 (cur ++ String c "") s'
      end
  end.

(** [s.split(sep, maxsplit)] *)
Definition split (s sep : string) (maxsplit : budget) : outcome (list string) :=
  match sep with
  | EmptyString => Raise (ValueError "empty separator")
  | String _ _ => Return (split_scan sep maxsplit 0 "" s)
  end.

(** [l[0]] *)
Definition first (l : list string) : outcome string :=
  match l with
  | [] => Raise (IndexError "list index out of range")
  | x :: _ => Return x
  end.

End PyStr.

(** ** The fragment of Python's [re] used by the redirects

    Literal characters, [.], a postfix [?] on a single character, and the
    anchors [^] and [$], without flags.  The matcher is the backtracking
    matcher of CPython: alternatives are tried in priority order (a [?]
    first takes its character), and the first success is the match. *)
Module PyRe.

Inductive charset : Type :=
| Lit (c : ascii)
| Dot.

Inductive atom : Type :=
| One (m : charset)
| Opt (m : charset)
| Bol
| Eol.

Definition regex := list atom.

Definition newline : ascii := "010"%char.

(** [.] matches any character but a newline. *)
Definition accepts (m : charset) (c : ascii) : bool :=
  match m with
  | Lit d => Ascii.eqb d c
  | Dot => negb (Ascii.eqb c newline)
  end.

(** The characters that are syntax in a pattern. *)
Definition special (c : ascii) : bool :=
  PyStr.mem_char c ".^$*+?{}[]\|()".

Definition charset_of (c : ascii) : option charset :=
  if Ascii.eqb c "."%char then Some Dot
  else if special c then None
  else Some (Lit c).

(** [re.compile(pattern)] on the fragment. *)
Fixpoint parse (pattern : string) : option regex :=
  match pattern with
  | EmptyString => Some []
  | String c rest =>
      if Ascii.eqb c "^"%char then option_map (cons Bol) (parse rest)
      else if Ascii.eqb c "$"%char then option_map (cons Eol) (parse rest)
      else
        match charset_of c with
        | None => None
        | Some m =>
            match rest with
            | String q rest' =>
                if Ascii.eqb q "?"%char
                then option_map (cons (Opt m)) (parse rest')
                else option_map (cons (One m)) (parse rest)
            | EmptyString => option_map (cons (One m)) (parse rest)
            end
        end
  end.

Definition compile (pattern : string) : outcome regex :=
  match parse pattern with
  | Some r => Return r
  | None => Raise (PatternNotModelled pattern)
  end.

(** [$] matches at the end of the string and just before a newline that
    ends the string. *)
Definition at_eol (s : string) : bool :=
  match s with
  | EmptyString => true
  | String c EmptyString => Ascii.eqb c newline
  | _ => false
  end.

Definition step (m : charset) (s : string) (k : string -> list nat) : list nat :=
  match s with
  | EmptyString => []
  | String c s' => if accepts m c then map S (k s') else []
  end.

(** The lengths of all the matches of [r] that start at the head of [s],
    in the order the backtracking matcher finds them; [at_bol] tells
    whether [s] is the whole subject string. *)
Fixpoint matches_here (r : regex) (at_bol : bool) (s : string) : list nat :=
  match r with
  | [] => [0]
  | One m :: r' => step m s (matches_here r' false)
  | Opt m :: r' => step m s (matches_here r' false) ++ matches_here r' at_bol s
  | Bol :: r' => if at_bol then matches_here r' at_bol s else []
  | Eol :: r' => if at_eol s then matches_here r' at_bol s else []
  end.

(** [re.match(pattern, s)]: a match object (here its end offset) or
    [None]. *)
Definition re_match (pattern s : string) : outcome (option nat) :=
  r <- compile pattern ;;
  Return (hd_error (matches_here r true s)).

(** The scan of [re.sub]: at each position the leftmost match is replaced
    and the scan resumes after it.  After an empty match the search
    resumes at the same position and must advance, so that the next
    match there has to be non-empty. *)
Fixpoint sub_scan (r : regex) (repl : string) (at_bol : bool) (skip : nat)
         (s : string) : string :=
  match s with
  | EmptyString =>
      match matches_here r at_bol s with
      | [] => EmptyString
      | _ :: _ => repl
      end
  | String c s' =>
      match skip with
      | S k => sub_scan r repl false k s'
      | O =>
          match matches_here r at_bol s with
          | [] => String c (sub_scan r repl false 0 s')
          | S n :: _ => repl ++ sub_scan r repl false n s'
          | O :: ms =>
              repl ++
              match find (fun n => negb (n =? 0)%nat) ms with
              | Some n => repl ++ sub_scan r repl false (pred n) s'
              | None => String c (sub_scan r repl false 0 s')
              end
          end
      end
  end.

(** [re.sub(pattern, repl, s)] for a replacement without backslashes. *)
Definition re_sub (pattern repl s : string) : outcome string :=
  r <- compile pattern ;;
  Return (sub_scan r repl true 0 s).

End PyRe.

(** ** The [Redirect] model *)

(** The part of [readthedocs.projects.models.Project] a redirect reads. *)
Record Project : Type := {
  language : string;
  default_version : string
}.

(** The fields of [Redirect]; the two timestamps are left out. *)
Record Redirect : Type := {
  project : Project;
  redirect_type : string;
  from_url : string;
  from_url_without_rest : option string;
  to_url : string;
  force : option bool;
  http_status : nat;
  status : bool
}.

Definition TYPE_CHOICES : list (string * string) :=
  [ ("prefix", "Prefix Redirect");
    ("page", "Page Redirect");
    ("exact", "Exact Redirect");
    ("sphinx_html", "Sphinx HTMLDir -> HTML");
    ("sphinx_htmldir", "Sphinx HTML -> HTMLDir") ].

(** The type tags the [redirect_type] field declares as its choices. *)
Definition type_tags : list string := map fst TYPE_CHOICES.

Definition is_type_tag (t : string) : bool :=
  existsb (String.eqb t) type_tags.

Definition set_from_url_without_rest (self : Redirect) (v : option string)
  : Redirect :=
  {| project := project self;
     redirect_type := redirect_type self;
     from_url := from_url self;
     from_url_without_rest := v;
     to_url := to_url self;
     force := force self;
     http_status := http_status self;
     status := status self |}.

Definition set_from_url (self : Redirect) (v : string) : Redirect :=
  {| project := project self;
     redirect_type := redirect_type self;
     from_url := v;
     from_url_without_rest := from_url_without_rest self;
     to_url := to_url self;
     force := force self;
     http_status := http_status self;
     status := status self |}.

Definition set_redirect_type (self : Redirect) (v : string) : Redirect :=
  {| project := project self;
     redirect_type := v;
     from_url := from_url self;
     from_url_without_rest := from_url_without_rest self;
     to_url := to_url self;
     force := force self;
     http_status := http_status self;
     status := status self |}.

Definition set_to_url (self : Redirect) (v : string) : Redirect :=
  {| project := project self;
     redirect_type := redirect_type self;
     from_url := from_url self;
     from_url_without_rest := from_url_without_rest self;
     to_url := v;
     force := force self;
     http_status := http_status self;
     status := status self |}.

(** An instance in memory together with its row in the database, if it
    has been saved. *)
Record saved : Type := {
  obj : Redirect;
  row : option Redirect
}.

(** [Redirect.save]: the derived field is written when the rule is an
    exact redirect with [$rest] in its source, and only then;
    [super().save()] then writes every field of the instance to its row. *)
Definition save (st : saved) : saved :=
  let self := obj st in
  let self :=
    if (redirect_type self =? "exact") && PyStr.contains "$rest" (from_url self)
    then set_from_url_without_rest self
           (Some (PyStr.replace (from_url self) "$rest" "" None))
    else self in
  {| obj := self; row := Some self |}.

(** What the code around the model does to an instance: assign to a field,
    or save. *)
Inductive op : Type :=
| SetRedirectType (v : string)
| SetFromUrl (v : string)
| SetToUrl (v : string)
| Save.

Definition apply_op (st : saved) (o : op) : saved :=
  match o with
  | SetRedirectType v => {| obj := set_redirect_type (obj st) v; row := row st |}
  | SetFromUrl v => {| obj := set_from_url (obj st) v; row := row st |}
  | SetToUrl v => {| obj := set_to_url (obj st) v; row := row st |}
  | Save => save st
  end.

Definition run (st : saved) (ops : list op) : saved :=
  fold_left apply_op ops st.

Section Resolution.

(** [readthedocs.core.resolver.resolve_path], the canonical path builder,
    called with [project], [language], [version_slug] and [filename]. *)
Variable resolve_path :
  Project -> option string -> option string -> string -> string.

Definition get_full_path (self : Redirect) (filename : string)
           (language version_slug : option string) (allow_crossdomain : bool)
  : outcome string :=
  if allow_crossdomain then
    m <- PyRe.re_match "^https?://" filename ;;
    match m with
    | Some _ => Return filename
    | None => Return (resolve_path (project self) language version_slug filename)
    end
  else Return (resolve_path (project self) language version_slug filename).

Definition redirect_prefix (self : Redirect) (path : string)
           (full_path language version_slug : option string)
  : outcome (option string) :=
  if PyStr.startswith path (from_url self) then
    let cut_path := PyStr.slice_from (length (from_url self)) path in
    to <- get_full_path self cut_path language version_slug false ;;
    Return (Some to)
  else Return None.

Definition redirect_page (self : Redirect) (path : string)
           (full_path language version_slug : option string)
  : outcome (option string) :=
  if path =? from_url self then
    to <- get_full_path self (PyStr.lstrip "/" (to_url self))
                        language version_slug true ;;
    Return (Some to)
  else Return None.

(** [full_path] defaults to [None] in [get_redirect_path]; [None] has no
    [startswith]. *)
Definition redirect_exact (self : Redirect) (path : string)
           (full_path language version_slug : option string)
  : outcome (option string) :=
  if match full_path with
     | Some fp => fp =? from_url self
     | None => false
     end
  then Return (Some (to_url self))
  else if PyStr.contains "$rest" (from_url self) then
    pieces <- PyStr.split (from_url self) "$rest" (Some 1) ;;
    match_ <- PyStr.first pieces ;;
    match full_path with
    | Some fp =>
        if PyStr.startswith fp match_ then
          let cut_path := PyStr.replace fp match_ (to_url self) (Some 1) in
          Return (Some cut_path)
        else Return None
    | None => Raise (AttributeError "startswith")
    end
  else Return None.

(** The loop over the endings of [redirect_sphinx_html]; it returns from
    inside the loop at the first ending that [path] has. *)
Fixpoint sphinx_html_endings (self : Redirect) (endings : list string)
         (path : string) (language version_slug : option string)
  : outcome (option string) :=
  match endings with
  | [] => Return None
  | ending :: endings' =>
      if PyStr.endswith path ending then
        let path := PyStr.slice_from 1 path in
        to <- PyRe.re_sub (ending ++ "$") ".html" path ;;
        d <- get_full_path self to language version_slug false ;;
        Return (Some d)
      else sphinx_html_endings self endings' path language version_slug
  end.

Definition redirect_sphinx_html (self : Redirect) (path : string)
           (full_path language version_slug : option string)
  : outcome (option string) :=
  sphinx_html_endings self ["/"; "/index.html"] path language version_slug.

Definition redirect_sphinx_htmldir (self : Redirect) (path : string)
           (full_path language version_slug : option string)
  : outcome (option string) :=
  if PyStr.endswith path ".html" then
    let path := PyStr.slice_from 1 path in
    to <- PyRe.re_sub ".html$" "/" path ;;
    d <- get_full_path self to language version_slug false ;;
    Return (Some d)
  else Return None.

(** What [getattr(self, name)] finds for a name that starts with
    [redirect_]: one of the five methods, or the field [redirect_type]. *)
Inductive attribute : Type :=
| Method (m : Redirect -> string -> option string -> option string ->
              option string -> outcome (option string))
| Field (v : string).

Definition getattr (self : Redirect) (name : string) : outcome attribute :=
  if name =? "redirect_prefix" then Return (Method redirect_prefix)
  else if name =? "redirect_page" then Return (Method redirect_page)
  else if name =? "redirect_exact" then Return (Method redirect_exact)
  else if name =? "redirect_sphinx_html" then Return (Method redirect_sphinx_html)
  else if name =? "redirect_sphinx_htmldir"
       then Return (Method redirect_sphinx_htmldir)
  else if name =? "redirect_type" then Return (Field (redirect_type self))
  else Raise (AttributeError name).

Definition get_redirect_path (self : Redirect) (path : string)
           (full_path language version_slug : option string)
  : outcome (option string) :=
  method <- getattr self ("redirect_" ++ redirect_type self) ;;
  match method with
  | Method m => m self path full_path language version_slug
  | Field _ => Raise (TypeErrorNotCallable ("redirect_" ++ redirect_type self))
  end.

End Resolution.

(** ** The words of the specification *)

(** A filename that matches [^https?://]. *)
Definition is_http_url (filename : string) : bool :=
  PyStr.startswith filename "http://" || PyStr.startswith filename "https://".

(** [s[:n]] *)
Fixpoint slice_to (n : nat) (s : string) : string :=
  match n, s with
  | S k, String c s' => String c (slice_to k s')
  | _, _ => EmptyString
  end.

(** A substitution anchored at the end of the string: an [ending] that
    [s] ends with is replaced by [repl], and nothing else is touched. *)
Definition replace_ending (ending repl s : string) : string :=
  if PyStr.endswith s ending
  then slice_to (length s - length ending) s ++ repl
  else s.

(** [m] is the portion of [url] before the token: what precedes its first
    occurrence. *)
Definition before_token (token url m : string) : Prop :=
  (exists post, url = m ++ token ++ post) /\
  (forall a b, url = a ++ token ++ b -> length m <= length a).

(** The portion of [url] before the token, computed: the characters up to
    the first place where the token starts. *)
Fixpoint portion_before (token url : string) : string :=
  if PyStr.startswith url token then EmptyString
  else match url with
       | EmptyString => EmptyString
       | String c url' => String c (portion_before token url')
       end.

(** [from_url] with the wildcard token removed. *)
Definition without_rest (url : string) : string :=
  PyStr.replace url "$rest" "" None.

(** The derived field agrees with the source the instance has now. *)
Definition consistent (self : Redirect) : Prop :=
  from_url_without_rest self = None \/
  from_url_without_rest self = Some (without_rest (from_url self)).

(** [n] slashes. *)
Fixpoint slashes (n : nat) : string :=
  match n with
  | O => EmptyString
  | S k => String "/" (slashes k)
  end.

(** ** Sample data *)

(** Modelled from the spec: [readthedocs.core.resolver.resolve_path] is
    not part of the sources at hand; the specification has the canonical
    path builder compose [/<language>/<version>/<filename>], the language
    and version defaulting to those of the project. *)
Definition compose_path (p : Project) (lang version_slug : option string)
           (filename : string) : string :=
  "/" ++ match lang with Some l => l | None => language p end
      ++ "/" ++ match version_slug with Some v => v | None => default_version p end
      ++ "/" ++ filename.

Definition docs : Project := {| language := "en"; default_version := "latest" |}.

Definition rule (type from to : string) : Redirect :=
  {| project := docs;
     redirect_type := type;
     from_url := from;
     from_url_without_rest := None;
     to_url := to;
     force := Some false;
     http_status := 302;
     status := true |}.

(** An exact redirect with a wildcard is saved, then its source is
    edited to one without the wildcard and it is saved again. *)
Definition edited_rule : saved :=
  run {| obj := rule "exact" "/a/$rest" "/x/"; row := None |}
      [Save; SetFromUrl "/b/"; Save].

(** ** Auxiliary definitions *)

(** A pattern of single characters closed by [$]: whether it matches the
    whole of [s], up to a newline that ends [s]. *)
Fixpoint fits (ms : list PyRe.charset) (s : string) : bool :=
  match ms with
  | nil => PyRe.at_eol s
  | cons m ms' =>
      match s with
      | EmptyString => false
      | String c s' => PyRe.accepts m c && fits ms' s'
      end
  end.

Fixpoint last_is_newline (s : string) : bool :=
  match s with
  | EmptyString => false
  | String c EmptyString => Ascii.eqb c PyRe.newline
  | String _ s' => last_is_newline s'
  end.

(** The characters [ms] accept, one for one, the head of [s]. *)
Fixpoint accepts_all (ms : list PyRe.charset) (s : string) : bool :=
  match ms with
  | nil => true
  | cons m ms' =>
      match s with
      | EmptyString => false
      | String c s' => PyRe.accepts m c && accepts_all ms' s'
      end
  end.

(** The pattern that spells out [l]. *)
Definition literal (l : string) : list PyRe.charset :=
  map PyRe.Lit (list_ascii_of_string l).

Definition is_match (ms : list nat) : bool :=
  match ms with
  | nil => false
  | cons _ _ => true
  end.

(** ** How a redirect is displayed *)

Section Display.

(** [gettext] under the active language; the labels of [TYPE_CHOICES]
    are lazy translations, evaluated when they are displayed. *)
Variable translate : string -> string.

(** [x in l] for a list of strings *)
Definition in_list (x : string) (l : list string) : bool :=
  existsb (String.eqb x) l.

(** Django's [get_FOO_display]: the label of the value among the choices
    of the field, and the value itself when it is not one of them. *)
Definition get_redirect_type_display (self : Redirect) : string :=
  match find (fun choice => fst choice =? redirect_type self) TYPE_CHOICES with
  | Some choice => translate (snd choice)
  | None => redirect_type self
  end.

Definition get_from_to_url_display (self : Redirect) : string :=
  if in_list (redirect_type self) ["prefix"; "page"; "exact"] then
    let from_url_ := from_url self in
    let to_url_ :=
      if redirect_type self =? "prefix"
      then "/" ++ language (project self) ++ "/"
               ++ default_version (project self) ++ "/"
      else to_url self in
    from_url_ ++ " -> " ++ to_url_
  else "".

Definition __str__ (self : Redirect) : string :=
  if in_list (redirect_type self) ["prefix"; "page"; "exact"] then
    get_redirect_type_display self ++ ": " ++ get_from_to_url_display self
  else translate ("Redirect: " ++ get_redirect_type_display self).

End Display.

(** ** Integrations *)

Module Integrations.

Set Warnings "-register-all".

(** A value of a [JSONField]: what [json] gives back, numbers being
    integers here. *)
Inductive pyval : Type :=
| PNone
| PBool (b : bool)
| PInt (n : Z)
| PStr (s : string)
| PList (l : list pyval)
| PDict (d : list (string * pyval)).

Inductive pyexc : Type :=
| PyAttributeError (name : string)
| PyTypeError (message : string)
| PyValueError (message : string).

Inductive attempt (A : Type) : Type :=
| Done (a : A)
| Failed (e : pyexc).

Arguments Done {A} a.
Arguments Failed {A} e.

(** [d.get(k)] on a [dict] *)
Fixpoint dict_get (d : list (string * pyval)) (k : string) : pyval :=
  match d with
  | nil => PNone
  | cons (k', v) d' => if k' =? k then v else dict_get d' k
  end.

(** [v.get(k)]: only a [dict] has the method. *)
Definition get (v : pyval) (k : string) : attempt pyval :=
  match v with
  | PDict d => Done (dict_get d k)
  | _ => Failed (PyAttributeError "get")
  end.

(** [x is None] *)
Definition is_None (x : pyval) : bool :=
  match x with PNone => true | _ => false end.

(** [k in v] for a string [k]: a key of a [dict], an item of a [list], a
    substring of a [str]; the other values are not iterable. *)
Definition contains (k : string) (v : pyval) : attempt bool :=
  match v with
  | PDict d => Done (existsb (fun kv => fst kv =? k) d)
  | PList l =>
      Done (existsb (fun x => match x with PStr s => s =? k | _ => false end) l)
  | PStr s => Done (PyStr.contains k s)
  | _ => Failed (PyTypeError "argument is not iterable")
  end.

(** [all((k in v) for k in keys)]: stops at the first key that is not in
    [v]. *)
Fixpoint all_in (keys : list string) (v : pyval) : attempt bool :=
  match keys with
  | nil => Done true
  | cons k keys' =>
      match contains k v with
      | Done true => all_in keys' v
      | Done false => Done false
      | Failed e => Failed e
      end
  end.

(** The fields of [Integration] that hold plain data. *)
Record Integration : Type := {
  integration_type : string;
  provider_data : pyval;
  provider_data_json : pyval;
  secret : option string
}.

Definition GITHUB_WEBHOOK : string := "github_webhook".
Definition BITBUCKET_WEBHOOK : string := "bitbucket_webhook".
Definition GITLAB_WEBHOOK : string := "gitlab_webhook".
Definition API_WEBHOOK : string := "api_webhook".

Definition set_provider_data (self : Integration) (v : pyval) : Integration :=
  {| integration_type := integration_type self;
     provider_data := v;
     provider_data_json := provider_data_json self;
     secret := secret self |}.

Definition set_provider_data_json (self : Integration) (v : pyval) : Integration :=
  {| integration_type := integration_type self;
     provider_data := provider_data self;
     provider_data_json := v;
     secret := secret self |}.

(** An instance together with its row, as for the redirects. *)
Record saved_integration : Type := {
  instance : Integration;
  stored : option Integration
}.

(** [Integration.save]: [provider_data] is copied into the new field, and
    the instance written. *)
Definition Integration_save (self : Integration) : saved_integration :=
  let self := set_provider_data_json self (provider_data self) in
  {| instance := self; stored := Some self |}.

(** The body of the three [can_sync] properties, which differ in their
    keys only: a [ValueError] or [TypeError] of the test is answered
    [False]. *)
Definition can_sync (keys : list string) (self : Integration) : attempt bool :=
  match all_in keys (provider_data self) with
  | Done b => Done b
  | Failed (PyValueError _) => Done false
  | Failed (PyTypeError _) => Done false
  | Failed e => Failed e
  end.

Definition GitHubWebhook_can_sync : Integration -> attempt bool :=
  can_sync ["id"; "url"].

Definition BitbucketWebhook_can_sync : Integration -> attempt bool :=
  can_sync ["uuid"; "url"].

Definition GitLabWebhook_can_sync : Integration -> attempt bool :=
  can_sync ["id"; "url"].

(** [GenericAPIWebhook.save]; [fresh] is what [default_token()] returns
    if it is called. *)
Definition GenericAPIWebhook_save (fresh : string) (self : Integration)
  : attempt saved_integration :=
  let token :=
    match get (provider_data self) "token" with
    | Done t => Done t
    | Failed (PyAttributeError _) => Done PNone
    | Failed (PyTypeError _) => Done PNone
    | Failed e => Failed e
    end in
  match token with
  | Done token =>
      let self :=
        if is_None token
        then set_provider_data self (PDict [("token", PStr fresh)])
        else self in
      Done (Integration_save self)
  | Failed e => Failed e
  end.

(** [GenericAPIWebhook.token] *)
Definition GenericAPIWebhook_token (self : Integration) : attempt pyval :=
  get (provider_data self) "token".

(** The columns of [HttpExchange] the manager reads; a content type is
    an application label and a model name. *)
Record HttpExchange : Type := {
  pk : nat;
  content_type : string * string;
  object_id : nat;
  date : nat;
  status_code : Z
}.

(** [HttpExchange.failed] *)
Definition failed (self : HttpExchange) : bool :=
  negb ((200 <=? status_code self)%Z && (status_code self <? 300)%Z).

(** What [delete_limit] reads of the object the exchanges relate to:
    whether it is an [Integration] (a proxy subclass included), the
    labels of its own model, and its key. *)
Record related : Type := {
  is_Integration : bool;
  app_label : string;
  model_name : string;
  related_pk : nat
}.

Definition content_type_of (related_object : related) : string * string :=
  if is_Integration related_object
  then ("integrations", "integration")
  else (app_label related_object, model_name related_object).

(** [filter(content_type=..., object_id=...)] *)
Definition relates_to (related_object : related) (exchange : HttpExchange) : bool :=
  (fst (content_type exchange) =? fst (content_type_of related_object))
  && (snd (content_type exchange) =? snd (content_type_of related_object))
  && (object_id exchange =? related_pk related_object)%nat.

(** [exchange.delete()] *)
Definition delete (table : list HttpExchange) (exchange : HttpExchange)
  : list HttpExchange :=
  filter (fun row => negb (pk row =? pk exchange)%nat) table.

(** [HttpExchangeManager.delete_limit] on the table of exchanges;
    [order_by] is the order in which the database hands out the rows of
    a query, newest first. *)
Definition delete_limit (order_by : list HttpExchange -> list HttpExchange)
           (table : list HttpExchange) (related_object : related) (limit : nat)
  : list HttpExchange :=
  let queryset := order_by (filter (relates_to related_object) table) in
  fold_left delete (skipn limit queryset) table.

(** Newest first, rows of one date in the order of the table. *)
Fixpoint insert_by_date (e : HttpExchange) (l : list HttpExchange)
  : list HttpExchange :=
  match l with
  | nil => cons e nil
  | cons x l' =>
      if (date x <? date e)%nat then cons e l else cons x (insert_by_date e l')
  end.

Definition newest_first (l : list HttpExchange) : list HttpExchange :=
  fold_right insert_by_date nil l.

(** The rows that a run of deletions leaves. *)
Definition kept (victims : list HttpExchange) (row : HttpExchange) : bool :=
  negb (existsb (fun e => (pk row =? pk e)%nat) victims).

(** A webhook with three exchanges, and an exchange of another object. *)
Definition webhook : related :=
  {| is_Integration := true; app_label := "integrations";
     model_name := "githubwebhook"; related_pk := 7 |}.

Definition exchange (key object day : nat) : HttpExchange :=
  {| pk := key; content_type := ("integrations", "integration");
     object_id := object; date := day; status_code := 200%Z |}.

Definition exchanges : list HttpExchange :=
  [exchange 1 7 10; exchange 2 8 11; exchange 3 7 12; exchange 4 7 11].

End Integrations.

(** * Properties *)

(** ** The primitives on concrete inputs *)

Example startswith_docs : PyStr.startswith "/docs/api" "/docs/" = true.
Proof. reflexivity. Qed.

Example endswith_index : PyStr.endswith "/guide/index.html" "/index.html" = true.
Proof. reflexivity. Qed.

Example endswith_longer : PyStr.endswith "html" ".html" = false.
Proof. reflexivity. Qed.

Example replace_first_only :
  PyStr.replace "/a/b/a/" "/a/" "/x/" (Some 1) = "/x/b/a/".
Proof. reflexivity. Qed.

Example replace_every_token :
  PyStr.replace "/a$rest/b$rest" "$rest" "" None = "/a/b".
Proof. reflexivity. Qed.

Example replace_empty_old : PyStr.replace "abc" "" "-" None = "-a-b-c-".
Proof. reflexivity. Qed.

Example replace_empty_old_once : PyStr.replace "abc" "" "-" (Some 1) = "-abc".
Proof. reflexivity. Qed.

Example split_once_docs :
  PyStr.split "/docs/$rest/x$rest" "$rest" (Some 1)
  = Return ["/docs/"; "/x$rest"].
Proof. reflexivity. Qed.

Example split_every_token :
  PyStr.split "a$restb$rest" "$rest" None = Return ["a"; "b"; ""].
Proof. reflexivity. Qed.

Example lstrip_two_slashes : PyStr.lstrip "/" "//a/b" = "a/b".
Proof. reflexivity. Qed.

Example parse_http :
  PyRe.parse "^https?://"
  = Some [PyRe.Bol; PyRe.One (PyRe.Lit "h"); PyRe.One (PyRe.Lit "t");
          PyRe.One (PyRe.Lit "t"); PyRe.One (PyRe.Lit "p");
          PyRe.Opt (PyRe.Lit "s"); PyRe.One (PyRe.Lit ":");
          PyRe.One (PyRe.Lit "/"); PyRe.One (PyRe.Lit "/")].
Proof. reflexivity. Qed.

Example sub_optional : PyRe.re_sub "x?" "-" "abxd" = Return "-a-b--d-".
Proof. reflexivity. Qed.

Example sub_dot_is_any : PyRe.re_sub ".html$" "/" "a.html/bxhtml" = Return "a.html/b/".
Proof. reflexivity. Qed.

Example sub_nothing_to_rewrite :
  PyRe.re_sub "/index.html$" ".html" "index.html" = Return "index.html".
Proof. reflexivity. Qed.

Example match_http : PyRe.re_match "^https?://" "http://example.org" = Return (Some 7).
Proof. reflexivity. Qed.

Example match_not_http : PyRe.re_match "^https?://" "httpss://example.org" = Return None.
Proof. reflexivity. Qed.

Example sphinx_html_root :
  get_redirect_path compose_path (rule "sphinx_html" "" "") "/" None None None
  = Return (Some "/en/latest/").
Proof. reflexivity. Qed.

Example sphinx_html_root_index :
  get_redirect_path compose_path (rule "sphinx_html" "" "") "/index.html"
                    None None None
  = Return (Some "/en/latest/index.html").
Proof. reflexivity. Qed.

Example exact_without_full_path :
  get_redirect_path compose_path (rule "exact" "/docs/$rest" "/v2/") "/api"
                    None None None
  = Raise (AttributeError "startswith").
Proof. reflexivity. Qed.

(** ** Facts about the string primitives *)

Lemma append_empty_r (s : string) : s ++ "" = s.
Proof. induction s as [|c s IH]; simpl; [reflexivity | now rewrite IH]. Qed.

Lemma append_assoc (a b c : string) : (a ++ b) ++ c = a ++ (b ++ c).
Proof. induction a as [|x a IH]; simpl; [reflexivity | now rewrite IH]. Qed.

Lemma length_append (a b : string) : length (a ++ b) = length a + length b.
Proof. induction a as [|x a IH]; simpl; [reflexivity | now rewrite IH]. Qed.

Lemma append_same_prefix (p a b : string) : ((p ++ a) =? (p ++ b)) = (a =? b).
Proof.
  induction p as [|c p IH]; simpl; [reflexivity|].
  now rewrite Ascii.eqb_refl.
Qed.

Lemma startswith_empty (s : string) : PyStr.startswith s "" = true.
Proof. destruct s; reflexivity. Qed.

Lemma startswith_append (p r : string) : PyStr.startswith (p ++ r) p = true.
Proof.
  induction p as [|c p IH]; simpl.
  - apply startswith_empty.
  - now rewrite Ascii.eqb_refl.
Qed.

Lemma startswith_split (s p : string) :
  PyStr.startswith s p = true -> s = p ++ PyStr.slice_from (length p) s.
Proof.
  revert s; induction p as [|a p IH]; intros s H; simpl in *.
  - reflexivity.
  - destruct s as [|b s]; [discriminate|].
    apply andb_true_iff in H as [Hab Hs].
    apply Ascii.eqb_eq in Hab; subst b.
    f_equal. now apply IH.
Qed.

Lemma slice_from_append (p r : string) : PyStr.slice_from (length p) (p ++ r) = r.
Proof. induction p as [|c p IH]; simpl; [reflexivity | exact IH]. Qed.

Lemma slice_to_append (p r : string) : slice_to (length p) (p ++ r) = p.
Proof.
  induction p as [|c p IH]; simpl.
  - destruct r; reflexivity.
  - now rewrite IH.
Qed.

Lemma slice_from_suffix (n : nat) (s : string) :
  exists p, s = p ++ PyStr.slice_from n s.
Proof.
  revert s; induction n as [|n IH]; intros s; simpl.
  - now exists "".
  - destruct s as [|c s].
    + now exists "".
    + destruct (IH s) as [p Hp]. exists (String c p). simpl. now rewrite <- Hp.
Qed.

Lemma endswith_append (p e : string) : PyStr.endswith (p ++ e) e = true.
Proof.
  unfold PyStr.endswith. rewrite length_append.
  replace (length p + length e - length e) with (length p) by lia.
  rewrite slice_from_append, String.eqb_refl.
  rewrite andb_true_r. apply Nat.leb_le. lia.
Qed.

Lemma endswith_split (s e : string) :
  PyStr.endswith s e = true -> exists p, s = p ++ e.
Proof.
  unfold PyStr.endswith. intros H.
  apply andb_true_iff in H as [_ H]. apply String.eqb_eq in H.
  destruct (slice_from_suffix (length s - length e) s) as [p Hp].
  exists p. now rewrite H in Hp.
Qed.

(** A string with a first character ends with [e] when it is [e] or when
    what follows the first character ends with [e]. *)
Lemma endswith_cons (c : ascii) (s e : string) :
  PyStr.endswith (String c s) e = true ->
  e = String c s \/ PyStr.endswith s e = true.
Proof.
  intros H. destruct (endswith_split _ _ H) as [p Hp].
  destruct p as [|d p]; simpl in Hp.
  - now left.
  - right. injection Hp as _ Hs. subst s. apply endswith_append.
Qed.

Lemma replace_ending_append (ending repl stem : string) :
  replace_ending ending repl (stem ++ ending) = stem ++ repl.
Proof.
  unfold replace_ending. rewrite endswith_append, length_append.
  replace (length stem + length ending - length ending) with (length stem) by lia.
  now rewrite slice_to_append.
Qed.

Lemma contains_startswith (sub s : string) :
  PyStr.startswith s sub = true -> PyStr.contains sub s = true.
Proof. intros H. destruct s; cbn [PyStr.contains]; now rewrite H. Qed.

Lemma contains_append (a sub b : string) :
  PyStr.contains sub (a ++ sub ++ b) = true.
Proof.
  induction a as [|c a IH]; simpl.
  - apply contains_startswith, startswith_append.
  - rewrite IH. apply orb_true_r.
Qed.

Lemma slice_from_empty (n : nat) : PyStr.slice_from n "" = "".
Proof. destruct n; reflexivity. Qed.

Lemma replace_scan_exhausted (old new : string) (k : nat) (s : string) :
  PyStr.replace_scan old new (Some 0) k s = PyStr.slice_from k s.
Proof.
  revert k; induction s as [|c s IH]; intros k.
  - now rewrite slice_from_empty.
  - destruct k as [|k]; simpl; [reflexivity | apply IH].
Qed.

Lemma interleave_exhausted (new s : string) :
  PyStr.interleave new (Some 0) s = s.
Proof. destruct s; reflexivity. Qed.

(** Replacing once an [old] that the string starts with rewrites that
    prefix and leaves what follows as it is, whatever it contains. *)
Lemma replace_once_at_head (old new rest : string) :
  PyStr.replace (old ++ rest) old new (Some 1) = new ++ rest.
Proof.
  destruct old as [|a old]; unfold PyStr.replace.
  - destruct rest as [|c rest]; simpl.
    + reflexivity.
    + now rewrite interleave_exhausted.
  - cbn [append PyStr.replace_scan PyStr.exhausted PyStr.spend length pred].
    change (String a (old ++ rest)) with (String a old ++ rest).
    rewrite startswith_append.
    now rewrite replace_scan_exhausted, slice_from_append.
Qed.

Lemma split_scan_exhausted (sep : string) (k : nat) (cur s : string) :
  PyStr.split_scan sep (Some 0) k cur s = [cur ++ PyStr.slice_from k s].
Proof.
  revert k cur; induction s as [|c s IH]; intros k cur.
  - now rewrite slice_from_empty, append_empty_r.
  - destruct k as [|k]; simpl.
    + rewrite IH, append_assoc. reflexivity.
    + apply IH.
Qed.

(** Splitting once at a separator that occurs cuts the string at the
    first occurrence. *)
Lemma split_once (sep s cur : string) :
  sep <> "" ->
  PyStr.contains sep s = true ->
  exists post,
    PyStr.split_scan sep (Some 1) 0 cur s = [cur ++ portion_before sep s; post].
Proof.
  intros Hsep. revert cur; induction s as [|c s IH]; intros cur Hin.
  - destruct sep; [congruence | discriminate].
  - cbn [PyStr.contains] in Hin.
    cbn [PyStr.split_scan PyStr.exhausted negb andb PyStr.spend pred portion_before].
    destruct (PyStr.startswith (String c s) sep) eqn:Hhead.
    + eexists. rewrite split_scan_exhausted, append_empty_r. reflexivity.
    + simpl in Hin. destruct (IH (cur ++ String c "") Hin) as (post & Hs).
      exists post. rewrite Hs, append_assoc. reflexivity.
Qed.

Lemma portion_before_spec (sep s : string) :
  sep <> "" ->
  PyStr.contains sep s = true ->
  before_token sep s (portion_before sep s).
Proof.
  intros Hsep. induction s as [|c s IH]; intros Hin.
  - destruct sep; [congruence | discriminate].
  - cbn [PyStr.contains] in Hin. cbn [portion_before].
    destruct (PyStr.startswith (String c s) sep) eqn:Hhead.
    + split.
      * eexists. simpl. apply startswith_split. exact Hhead.
      * intros; simpl; lia.
    + simpl in Hin. destruct (IH Hin) as [[post Heq] Hmin]. split.
      * exists post. simpl. now rewrite <- Heq.
      * intros a b Hab. destruct a as [|d a].
        -- simpl in Hab. rewrite Hab, startswith_append in Hhead. discriminate.
        -- simpl in Hab. injection Hab as _ Hab. apply Hmin in Hab. simpl. lia.
Qed.

Lemma append_last_eq (p q : string) (a b : ascii) :
  p ++ String a "" = q ++ String b "" -> a = b.
Proof.
  revert q; induction p as [|c p IH]; intros [|d q] H; simpl in H.
  - congruence.
  - injection H as _ H. destruct q; discriminate.
  - injection H as _ H. destruct p; discriminate.
  - injection H as _ H. now apply IH in H.
Qed.

(** Two endings with different last characters exclude each other. *)
Lemma endswith_other_last (s e1 e2 : string) (a b : ascii) :
  a <> b ->
  PyStr.endswith s (e1 ++ String a "") = true ->
  PyStr.endswith s (e2 ++ String b "") = false.
Proof.
  intros Hab H1. destruct (PyStr.endswith s (e2 ++ String b "")) eqn:H2; [|reflexivity].
  apply endswith_split in H1 as [p Hp]. apply endswith_split in H2 as [q Hq].
  rewrite Hp, <- !append_assoc in Hq. apply append_last_eq in Hq. congruence.
Qed.

(** ** Facts about the regular expressions *)


Lemma matches_fits (ms : list PyRe.charset) (b : bool) (s : string) :
  PyRe.matches_here (map PyRe.One ms ++ [PyRe.Eol])%list b s =
  if fits ms s then [List.length ms] else [].
Proof.
  revert b s; induction ms as [|m ms IH]; intros b s; simpl.
  - destruct (PyRe.at_eol s); reflexivity.
  - destruct s as [|c s]; simpl; [reflexivity|].
    rewrite IH. destruct (PyRe.accepts m c), (fits ms s); reflexivity.
Qed.

Lemma fits_shape (ms : list PyRe.charset) (s : string) :
  fits ms s = true ->
  length s = List.length ms \/
  (length s = S (List.length ms) /\ last_is_newline s = true).
Proof.
  revert s; induction ms as [|m ms IH]; intros s H; simpl in H.
  - destruct s as [|c [|d s]]; simpl in *; try discriminate; auto.
  - destruct s as [|c s]; [discriminate|].
    apply andb_true_iff in H as [_ H].
    destruct (IH s H) as [Hl | [Hl Hn]]; simpl.
    + left; lia.
    + right; split; [lia|]. destruct s; [discriminate | exact Hn].
Qed.

Lemma last_is_newline_append (p e : string) :
  e <> "" -> last_is_newline (p ++ e) = last_is_newline e.
Proof.
  intros He. induction p as [|c p IH]; simpl; [reflexivity|].
  destruct (p ++ e) eqn:E; [|exact IH].
  destruct p; simpl in E; [congruence | discriminate].
Qed.

Lemma sub_scan_skip_all (r : PyRe.regex) (repl x : string) :
  PyRe.sub_scan r repl false (length x) x = PyRe.sub_scan r repl false 0 "".
Proof. induction x as [|c x IH]; simpl; [reflexivity | exact IH]. Qed.

(** Substituting for a pattern of single characters closed by [$], in a
    string that ends with text the pattern matches, rewrites that ending
    and nothing before it. *)
Lemma sub_scan_ending (ms : list PyRe.charset) (repl e : string) :
  fits ms e = true ->
  length e = List.length ms ->
  e <> "" ->
  last_is_newline e = false ->
  forall (p : string) (b : bool),
    PyRe.sub_scan (map PyRe.One ms ++ [PyRe.Eol])%list repl b 0 (p ++ e)
    = p ++ repl.
Proof.
  intros Hfit Hlen He Hnl p.
  induction p as [|c p IH]; intros b.
  - destruct e as [|c e]; [congruence|].
    cbn [append PyRe.sub_scan]. rewrite matches_fits, Hfit.
    simpl in Hlen. rewrite <- Hlen.
    rewrite sub_scan_skip_all. cbn [PyRe.sub_scan]. rewrite matches_fits.
    destruct ms as [|m ms]; [discriminate|]. simpl.
    apply append_empty_r.
  - cbn [append PyRe.sub_scan]. rewrite matches_fits.
    destruct (fits ms (String c (p ++ e))) eqn:Hf.
    + exfalso. apply fits_shape in Hf.
      change (String c (p ++ e)) with (String c p ++ e) in Hf.
      rewrite last_is_newline_append, length_append in Hf by assumption.
      simpl in Hf. destruct Hf as [Hf | [_ Hf]]; [lia | congruence].
    + now rewrite IH.
Qed.

Lemma is_match_map_S (l : list nat) : is_match (map S l) = is_match l.
Proof. destruct l; reflexivity. Qed.

Lemma is_match_app (l1 l2 : list nat) :
  is_match (l1 ++ l2)%list = is_match l1 || is_match l2.
Proof. destruct l1; reflexivity. Qed.

Lemma is_match_ones (m : PyRe.charset) (ms : list PyRe.charset)
      (r : PyRe.regex) (b : bool) (s : string) :
  is_match (PyRe.matches_here (map PyRe.One (m :: ms) ++ r)%list b s) =
  accepts_all (m :: ms) s &&
  is_match (PyRe.matches_here r false (PyStr.slice_from (List.length (m :: ms)) s)).
Proof.
  revert m b s; induction ms as [|m' ms IH]; intros m b s.
  - destruct s as [|c s]; simpl; [reflexivity|].
    destruct (PyRe.accepts m c); simpl; [apply is_match_map_S | reflexivity].
  - destruct s as [|c s]; [reflexivity|].
    change (PyRe.matches_here (map PyRe.One (m :: m' :: ms) ++ r)%list b (String c s))
      with (if PyRe.accepts m c
            then map S (PyRe.matches_here (map PyRe.One (m' :: ms) ++ r)%list false s)
            else []).
    cbn [accepts_all]. destruct (PyRe.accepts m c); [|reflexivity].
    rewrite is_match_map_S, IH. reflexivity.
Qed.

Lemma accepts_all_literal (l s : string) :
  accepts_all (literal l) s = PyStr.startswith s l.
Proof.
  revert s; induction l as [|a l IH]; intros s.
  - symmetry. apply startswith_empty.
  - destruct s as [|c s]; [reflexivity|].
    change (accepts_all (literal (String a l)) (String c s))
      with (Ascii.eqb a c && accepts_all (literal l) s).
    now rewrite IH.
Qed.

Lemma startswith_append_split (s a b : string) :
  PyStr.startswith s (a ++ b) =
  PyStr.startswith s a && PyStr.startswith (PyStr.slice_from (length a) s) b.
Proof.
  revert s; induction a as [|x a IH]; intros s; simpl.
  - now rewrite startswith_empty.
  - destruct s as [|c s]; [reflexivity|].
    cbn [PyStr.startswith]. rewrite IH. apply andb_assoc.
Qed.

Lemma length_literal (l : string) : List.length (literal l) = length l.
Proof.
  induction l as [|a l IH]; [reflexivity|].
  change (literal (String a l)) with (PyRe.Lit a :: literal l)%list.
  simpl. now rewrite IH.
Qed.

Lemma is_match_literal (l : string) (r : PyRe.regex) (b : bool) (s : string) :
  l <> "" ->
  is_match (PyRe.matches_here (map PyRe.One (literal l) ++ r)%list b s) =
  PyStr.startswith s l &&
  is_match (PyRe.matches_here r false (PyStr.slice_from (length l) s)).
Proof.
  intros Hl. destruct l as [|a l]; [congruence|].
  rewrite <- accepts_all_literal, <- length_literal.
  change (literal (String a l)) with (PyRe.Lit a :: literal l)%list.
  apply is_match_ones.
Qed.

Lemma is_match_opt (a : ascii) (r : PyRe.regex) (b : bool) (s : string) :
  is_match (PyRe.matches_here (PyRe.Opt (PyRe.Lit a) :: r) b s) =
  is_match (PyRe.matches_here (map PyRe.One (literal (String a "")) ++ r)%list b s)
  || is_match (PyRe.matches_here r b s).
Proof.
  change (PyRe.matches_here (PyRe.Opt (PyRe.Lit a) :: r) b s)
    with (PyRe.matches_here (map PyRe.One (literal (String a "")) ++ r)%list b s
          ++ PyRe.matches_here r b s)%list.
  apply is_match_app.
Qed.

Lemma is_match_hd_error (l : list nat) :
  match hd_error l with Some _ => true | None => false end = is_match l.
Proof. destruct l; reflexivity. Qed.

(** [re.match("^https?://", filename)] finds a match exactly for the
    filenames that begin with [http://] or [https://]. *)
Lemma re_match_http (filename : string) :
  exists m, PyRe.re_match "^https?://" filename = Return m /\
            match m with Some _ => true | None => false end
            = is_http_url filename.
Proof.
  unfold PyRe.re_match.
  change (PyRe.compile "^https?://") with
    (Return (PyRe.Bol ::
             map PyRe.One (literal "http") ++
             PyRe.Opt (PyRe.Lit "s") :: map PyRe.One (literal "://") ++ [])%list).
  cbn [bind]. eexists; split; [reflexivity|].
  rewrite is_match_hd_error.
  cbn [PyRe.matches_here].
  rewrite is_match_literal, is_match_opt by discriminate.
  rewrite !is_match_literal by discriminate.
  cbn [PyRe.matches_here is_match]. rewrite !andb_true_r.
  unfold is_http_url.
  change "http://" with ("http" ++ "://").
  change "https://" with ("http" ++ "s" ++ "://").
  rewrite !startswith_append_split.
  destruct (PyStr.startswith filename "http"); simpl; [|reflexivity].
  apply orb_comm.
Qed.

Lemma re_sub_slash (stem : string) :
  PyRe.re_sub ("/" ++ "$") ".html" (stem ++ "/") = Return (stem ++ ".html").
Proof.
  unfold PyRe.re_sub.
  change (PyRe.compile ("/" ++ "$"))
    with (Return (map PyRe.One (literal "/") ++ [PyRe.Eol])%list).
  cbn [bind]. f_equal.
  apply sub_scan_ending; [reflexivity | reflexivity | discriminate | reflexivity].
Qed.

(** The [.] of [/index.html$] is the regular expression's, and stands
    for any character; at the end of a path that ends with [/index.html]
    it meets the dot of the path. *)
Lemma re_sub_index (stem : string) :
  PyRe.re_sub ("/index.html" ++ "$") ".html" (stem ++ "/index.html")
  = Return (stem ++ ".html").
Proof.
  unfold PyRe.re_sub.
  change (PyRe.compile ("/index.html" ++ "$"))
    with (Return (map PyRe.One (literal "/index" ++ PyRe.Dot :: literal "html")
                  ++ [PyRe.Eol])%list).
  cbn [bind]. f_equal.
  apply sub_scan_ending; [reflexivity | reflexivity | discriminate | reflexivity].
Qed.

Lemma re_sub_html (stem : string) :
  PyRe.re_sub ".html$" "/" (stem ++ ".html") = Return (stem ++ "/").
Proof.
  unfold PyRe.re_sub.
  change (PyRe.compile ".html$")
    with (Return (map PyRe.One (PyRe.Dot :: literal "html") ++ [PyRe.Eol])%list).
  cbn [bind]. f_equal.
  apply sub_scan_ending; [reflexivity | reflexivity | discriminate | reflexivity].
Qed.

Lemma lstrip_slashes (s : string) :
  exists n, s = slashes n ++ PyStr.lstrip "/" s /\
            PyStr.startswith (PyStr.lstrip "/" s) "/" = false.
Proof.
  induction s as [|c s (n & Hn & Hs)].
  - now exists 0.
  - cbn [PyStr.lstrip PyStr.mem_char]. rewrite orb_false_r.
    destruct (Ascii.eqb c "/") eqn:E.
    + apply Ascii.eqb_eq in E; subst c.
      exists (S n). split; [simpl; now rewrite <- Hn | exact Hs].
    + exists 0. split; [reflexivity|].
      cbn [PyStr.startswith]. rewrite Ascii.eqb_sym, E. reflexivity.
Qed.

(** ** The redirect methods *)

Section Redirects.

Variable resolve_path :
  Project -> option string -> option string -> string -> string.

Lemma get_full_path_value (self : Redirect) (filename : string)
      (language version_slug : option string) (allow_crossdomain : bool) :
  get_full_path resolve_path self filename language version_slug allow_crossdomain =
  Return (if allow_crossdomain && is_http_url filename
          then filename
          else resolve_path (project self) language version_slug filename).
Proof.
  unfold get_full_path. destruct allow_crossdomain; [|reflexivity].
  destruct (re_match_http filename) as (m & Hm & Hb).
  rewrite Hm. cbn [bind andb]. rewrite <- Hb. now destruct m.
Qed.

Lemma dispatch_prefix (self : Redirect) :
  redirect_type self = "prefix" ->
  get_redirect_path resolve_path self = redirect_prefix resolve_path self.
Proof. intros H. unfold get_redirect_path. now rewrite H. Qed.

Lemma dispatch_page (self : Redirect) :
  redirect_type self = "page" ->
  get_redirect_path resolve_path self = redirect_page resolve_path self.
Proof. intros H. unfold get_redirect_path. now rewrite H. Qed.

Lemma dispatch_exact (self : Redirect) :
  redirect_type self = "exact" ->
  get_redirect_path resolve_path self = redirect_exact self.
Proof. intros H. unfold get_redirect_path. now rewrite H. Qed.

Lemma dispatch_sphinx_html (self : Redirect) :
  redirect_type self = "sphinx_html" ->
  get_redirect_path resolve_path self = redirect_sphinx_html resolve_path self.
Proof. intros H. unfold get_redirect_path. now rewrite H. Qed.

Lemma dispatch_sphinx_htmldir (self : Redirect) :
  redirect_type self = "sphinx_htmldir" ->
  get_redirect_path resolve_path self = redirect_sphinx_htmldir resolve_path self.
Proof. intros H. unfold get_redirect_path. now rewrite H. Qed.

(** What [redirect_exact] does with a wildcard source and a full path
    that is not the source itself. *)
Lemma redirect_exact_wildcard (self : Redirect) (path fp : string)
      (language version_slug : option string) :
  PyStr.contains "$rest" (from_url self) = true ->
  fp <> from_url self ->
  redirect_exact self path (Some fp) language version_slug =
  let match_ := portion_before "$rest" (from_url self) in
  if PyStr.startswith fp match_
  then Return (Some (PyStr.replace fp match_ (to_url self) (Some 1)))
  else Return None.
Proof.
  intros Hin Hne. unfold redirect_exact.
  apply String.eqb_neq in Hne. rewrite Hne, Hin.
  unfold PyStr.split.
  assert (Htoken : "$rest" <> "") by discriminate.
  destruct (split_once "$rest" (from_url self) "" Htoken Hin) as (post & Hs).
  rewrite Hs. reflexivity.
Qed.

(** C1. A rule of type Exact whose source has no [$rest]: the rule
    returns its destination [to_url] as it is when the full path equals
    the source, and no match otherwise; neither [path] nor the path
    resolver has a part in the outcome, and an empty [to_url] is returned
    as the empty string, which is not the absent value. *)
Theorem exact_without_wildcard (self : Redirect) (path : string)
        (full_path language version_slug : option string) :
  redirect_type self = "exact" ->
  PyStr.contains "$rest" (from_url self) = false ->
  (full_path = Some (from_url self) ->
   get_redirect_path resolve_path self path full_path language version_slug
   = Return (Some (to_url self))) /\
  (full_path <> Some (from_url self) ->
   get_redirect_path resolve_path self path full_path language version_slug
   = Return None) /\
  (forall (other_path : string)
          (other_resolver : Project -> option string -> option string ->
                            string -> string),
      get_redirect_path other_resolver self other_path full_path
                        language version_slug
      = get_redirect_path resolve_path self path full_path
                          language version_slug).
Proof.
  intros Htype Hplain.
  rewrite (dispatch_exact _ Htype). unfold redirect_exact. rewrite Hplain.
  repeat split.
  - intros ->. now rewrite String.eqb_refl.
  - intros Hne. destruct full_path as [fp|]; [|reflexivity].
    destruct (String.eqb_spec fp (from_url self)); [congruence | reflexivity].
  - intros other_path other_resolver.
    unfold get_redirect_path. rewrite Htype. cbn [append String.eqb].
    unfold getattr. cbn. unfold redirect_exact. now rewrite Hplain.
Qed.

(** C2. A rule of type Exact whose source contains [$rest], asked about
    a full path that is not the source itself: with [match_] the portion
    of the source before the token, a full path that starts with
    [match_] is returned with that first occurrence replaced by [to_url]
    and everything after it untouched, and any other full path is no
    match. *)
Theorem exact_with_wildcard (self : Redirect) (path fp : string)
        (language version_slug : option string) :
  redirect_type self = "exact" ->
  PyStr.contains "$rest" (from_url self) = true ->
  fp <> from_url self ->
  let match_ := portion_before "$rest" (from_url self) in
  before_token "$rest" (from_url self) match_ /\
  (forall rest, fp = match_ ++ rest ->
     get_redirect_path resolve_path self path (Some fp) language version_slug
     = Return (Some (to_url self ++ rest))) /\
  (PyStr.startswith fp match_ = true ->
     get_redirect_path resolve_path self path (Some fp) language version_slug
     = Return (Some (to_url self ++ PyStr.slice_from (length match_) fp))) /\
  (PyStr.startswith fp match_ = false ->
     get_redirect_path resolve_path self path (Some fp) language version_slug
     = Return None).
Proof.
  intros Htype Hin Hne match_.
  rewrite (dispatch_exact _ Htype), (redirect_exact_wildcard _ _ _ _ _ Hin Hne).
  fold match_. cbv zeta.
  assert (Hrest : forall rest, fp = match_ ++ rest ->
            (if PyStr.startswith fp match_
             then Return (Some (PyStr.replace fp match_ (to_url self) (Some 1)))
             else Return None)
            = Return (Some (to_url self ++ rest))).
  { intros rest ->. now rewrite startswith_append, replace_once_at_head. }
  split; [|split; [|split]].
  - apply portion_before_spec; [discriminate | exact Hin].
  - exact Hrest.
  - intros Hstart. apply Hrest, startswith_split, Hstart.
  - intros ->. reflexivity.
Qed.

(** C10. A rule of type Exact whose source begins with [$rest]: the
    portion before the token is empty, so every full path other than the
    source matches, and the destination is [to_url] put in front of the
    whole full path. *)
Theorem exact_leading_wildcard (self : Redirect) (path fp : string)
        (language version_slug : option string) :
  redirect_type self = "exact" ->
  PyStr.startswith (from_url self) "$rest" = true ->
  fp <> from_url self ->
  portion_before "$rest" (from_url self) = "" /\
  get_redirect_path resolve_path self path (Some fp) language version_slug
  = Return (Some (to_url self ++ fp)).
Proof.
  intros Htype Hhead Hne.
  assert (Hempty : portion_before "$rest" (from_url self) = "").
  { destruct (from_url self); cbn [portion_before]; now rewrite Hhead. }
  split; [exact Hempty|].
  rewrite (dispatch_exact _ Htype).
  rewrite redirect_exact_wildcard by (auto using contains_startswith).
  cbv zeta. rewrite Hempty, startswith_empty.
  pose proof (replace_once_at_head "" (to_url self) fp) as Hre.
  cbn [append] in Hre. now rewrite Hre.
Qed.

(** C3. A rule of type Prefix: a path that does not start with the
    source is no match; a path that starts with it resolves, through the
    path resolver without cross-domain allowance, to the canonical path
    of what is left of the path once the source is cut off its front. *)
Theorem prefix_redirect (self : Redirect) (path : string)
        (full_path language version_slug : option string) :
  redirect_type self = "prefix" ->
  (PyStr.startswith path (from_url self) = false ->
   get_redirect_path resolve_path self path full_path language version_slug
   = Return None) /\
  (forall rest, path = from_url self ++ rest ->
     get_full_path resolve_path self rest language version_slug false
     = Return (resolve_path (project self) language version_slug rest) /\
     get_redirect_path resolve_path self path full_path language version_slug
     = Return (Some (resolve_path (project self) language version_slug rest))).
Proof.
  intros Htype. rewrite (dispatch_prefix _ Htype). unfold redirect_prefix.
  split.
  - intros ->. reflexivity.
  - intros rest ->.
    rewrite startswith_append, slice_from_append, !get_full_path_value.
    split; reflexivity.
Qed.

(** C4. A rule of type Page: it returns a destination exactly when
    [path] is the source, whatever [full_path] is, and the destination is
    what the path resolver, with cross-domain allowance, makes of
    [to_url] with the slashes at its front stripped. *)
Theorem page_redirect (self : Redirect) (path : string)
        (full_path language version_slug : option string) :
  redirect_type self = "page" ->
  (path = from_url self ->
   exists n filename d,
     to_url self = slashes n ++ filename /\
     PyStr.startswith filename "/" = false /\
     get_full_path resolve_path self filename language version_slug true
     = Return d /\
     get_redirect_path resolve_path self path full_path language version_slug
     = Return (Some d)) /\
  (path <> from_url self ->
   get_redirect_path resolve_path self path full_path language version_slug
   = Return None).
Proof.
  intros Htype. rewrite (dispatch_page _ Htype). unfold redirect_page.
  split.
  - intros ->. rewrite String.eqb_refl.
    destruct (lstrip_slashes (to_url self)) as (n & Hn & Hs).
    exists n, (PyStr.lstrip "/" (to_url self)). eexists.
    rewrite get_full_path_value. cbn [bind]. repeat split; assumption.
  - intros Hne. apply String.eqb_neq in Hne. now rewrite Hne.
Qed.

(** C9. [get_full_path]: with cross-domain allowance, a filename that
    matches [^https?://] is returned unchanged; in every other case the
    canonical path builder is asked; and the call always returns a
    string. *)
Theorem get_full_path_cases (self : Redirect) (filename : string)
        (language version_slug : option string) :
  (is_http_url filename = true ->
   get_full_path resolve_path self filename language version_slug true
   = Return filename) /\
  (is_http_url filename = false ->
   get_full_path resolve_path self filename language version_slug true
   = Return (resolve_path (project self) language version_slug filename)) /\
  get_full_path resolve_path self filename language version_slug false
  = Return (resolve_path (project self) language version_slug filename) /\
  (forall allow_crossdomain, exists s,
     get_full_path resolve_path self filename language version_slug
                   allow_crossdomain = Return s) /\
  (exists m, PyRe.re_match "^https?://" filename = Return m /\
             (m <> None <-> is_http_url filename = true)).
Proof.
  rewrite !get_full_path_value. repeat split.
  - intros ->. reflexivity.
  - intros ->. reflexivity.
  - intros allow. rewrite get_full_path_value. eexists. reflexivity.
  - destruct (re_match_http filename) as (m & Hm & Hb).
    exists m. split; [exact Hm|]. rewrite <- Hb.
    destruct m; split; congruence.
Qed.

(** [path[1:]] drops the first character of the path, its leading
    slash, whatever it is; the substitution then rewrites the ending of
    what is left. *)
Lemma redirect_sphinx_htmldir_stem (self : Redirect) (c : ascii) (stem : string)
      (full_path language version_slug : option string) :
  redirect_sphinx_htmldir resolve_path self (String c (stem ++ ".html"))
                          full_path language version_slug
  = Return (Some (resolve_path (project self) language version_slug
                               (stem ++ "/"))).
Proof.
  unfold redirect_sphinx_htmldir.
  change (String c (stem ++ ".html")) with (String c stem ++ ".html") at 1.
  rewrite endswith_append. cbn [PyStr.slice_from].
  rewrite re_sub_html. cbn [bind]. now rewrite get_full_path_value.
Qed.

Lemma redirect_sphinx_html_slash (self : Redirect) (c : ascii) (stem : string)
      (full_path language version_slug : option string) :
  redirect_sphinx_html resolve_path self (String c (stem ++ "/"))
                       full_path language version_slug
  = Return (Some (resolve_path (project self) language version_slug
                               (stem ++ ".html"))).
Proof.
  unfold redirect_sphinx_html. cbn [sphinx_html_endings].
  change (String c (stem ++ "/")) with (String c stem ++ "/") at 1.
  rewrite endswith_append. cbn [PyStr.slice_from].
  rewrite re_sub_slash. cbn [bind]. now rewrite get_full_path_value.
Qed.

Lemma redirect_sphinx_html_index (self : Redirect) (c : ascii) (stem : string)
      (full_path language version_slug : option string) :
  redirect_sphinx_html resolve_path self (String c (stem ++ "/index.html"))
                       full_path language version_slug
  = Return (Some (resolve_path (project self) language version_slug
                               (stem ++ ".html"))).
Proof.
  unfold redirect_sphinx_html. cbn [sphinx_html_endings].
  assert (H : PyStr.endswith (String c (stem ++ "/index.html")) "/index.html" = true)
    by apply (endswith_append (String c stem)).
  rewrite (endswith_other_last _ "/index.htm" "" "l" "/") by (discriminate || exact H).
  rewrite H. cbn [PyStr.slice_from].
  rewrite re_sub_index. cbn [bind]. now rewrite get_full_path_value.
Qed.

(** C5. A rule of type [sphinx_html]: a path that ends with [/] or
    with [/index.html] resolves, through the path resolver without
    cross-domain allowance, to the path with its leading slash stripped
    and the ending then replaced by [.html] at the end of the string, so
    that [/stem/] and [/stem/index.html] both give [stem.html] with
    nothing appended; a path with neither ending is no match. *)
Theorem sphinx_html_redirect (self : Redirect)
        (full_path language version_slug : option string) :
  redirect_type self = "sphinx_html" ->
  (forall rest,
     PyStr.endswith (String "/" rest) "/" = true ->
     get_redirect_path resolve_path self (String "/" rest) full_path
                       language version_slug
     = Return (Some (resolve_path (project self) language version_slug
                                  (replace_ending "/" ".html" rest)))) /\
  (forall rest,
     PyStr.endswith (String "/" rest) "/index.html" = true ->
     get_redirect_path resolve_path self (String "/" rest) full_path
                       language version_slug
     = Return (Some (resolve_path (project self) language version_slug
                                  (replace_ending "/index.html" ".html" rest)))) /\
  (forall stem,
     get_redirect_path resolve_path self ("/" ++ stem ++ "/") full_path
                       language version_slug
     = Return (Some (resolve_path (project self) language version_slug
                                  (stem ++ ".html")))) /\
  (forall stem,
     get_redirect_path resolve_path self ("/" ++ stem ++ "/index.html") full_path
                       language version_slug
     = Return (Some (resolve_path (project self) language version_slug
                                  (stem ++ ".html")))) /\
  (forall path,
     PyStr.endswith path "/" = false ->
     PyStr.endswith path "/index.html" = false ->
     get_redirect_path resolve_path self path full_path language version_slug
     = Return None) /\
  (forall filename,
     get_full_path resolve_path self filename language version_slug false
     = Return (resolve_path (project self) language version_slug filename)).
Proof.
  intros Htype. rewrite (dispatch_sphinx_html _ Htype).
  split; [|split; [|split; [|split; [|split]]]].
  - intros rest H. apply endswith_cons in H as [H | H].
    + injection H as <-. reflexivity.
    + apply endswith_split in H as [stem ->].
      rewrite replace_ending_append. apply redirect_sphinx_html_slash.
  - intros rest H. apply endswith_cons in H as [H | H].
    + injection H as <-. reflexivity.
    + apply endswith_split in H as [stem ->].
      rewrite replace_ending_append. apply redirect_sphinx_html_index.
  - intros stem. apply redirect_sphinx_html_slash.
  - intros stem. apply redirect_sphinx_html_index.
  - intros path H1 H2. unfold redirect_sphinx_html.
    cbn [sphinx_html_endings]. now rewrite H1, H2.
  - intros filename. apply get_full_path_value.
Qed.

(** C6. A rule of type [sphinx_htmldir]: a path that ends with [.html]
    resolves, through the path resolver without cross-domain allowance,
    to the path with its leading slash stripped and the [.html] at its
    end replaced by [/]; a [.html] elsewhere in the path stays; a path
    that does not end with [.html] is no match. *)
Theorem sphinx_htmldir_redirect (self : Redirect)
        (full_path language version_slug : option string) :
  redirect_type self = "sphinx_htmldir" ->
  (forall rest,
     PyStr.endswith (String "/" rest) ".html" = true ->
     get_redirect_path resolve_path self (String "/" rest) full_path
                       language version_slug
     = Return (Some (resolve_path (project self) language version_slug
                                  (replace_ending ".html" "/" rest)))) /\
  (forall stem,
     get_redirect_path resolve_path self ("/" ++ stem ++ ".html") full_path
                       language version_slug
     = Return (Some (resolve_path (project self) language version_slug
                                  (stem ++ "/")))) /\
  (forall path,
     PyStr.endswith path ".html" = false ->
     get_redirect_path resolve_path self path full_path language version_slug
     = Return None) /\
  (forall filename,
     get_full_path resolve_path self filename language version_slug false
     = Return (resolve_path (project self) language version_slug filename)).
Proof.
  intros Htype. rewrite (dispatch_sphinx_htmldir _ Htype).
  split; [|split; [|split]].
  - intros rest H.
    apply endswith_cons in H as [H | H]; [discriminate H|].
    apply endswith_split in H as [stem ->].
    rewrite replace_ending_append. apply redirect_sphinx_htmldir_stem.
  - intros stem. apply redirect_sphinx_htmldir_stem.
  - intros path H. unfold redirect_sphinx_htmldir. now rewrite H.
  - intros filename. apply get_full_path_value.
Qed.

End Redirects.

(** ** Saving *)

Lemma startswith_other_head (c a : ascii) (s p : string) :
  Ascii.eqb c a = false -> PyStr.startswith (String c s) (String a p) = false.
Proof. intros H. simpl. now rewrite Ascii.eqb_sym, H. Qed.

(** Removing the token from a string leaves alone the text in which no
    [$] occurs. *)
Lemma replace_scan_keeps (new pre t : string) :
  PyStr.mem_char "$" pre = false ->
  PyStr.replace_scan "$rest" new None 0 (pre ++ t)
  = pre ++ PyStr.replace_scan "$rest" new None 0 t.
Proof.
  induction pre as [|c pre IH]; intros Hpre; [reflexivity|].
  cbn [PyStr.mem_char] in Hpre. apply orb_false_iff in Hpre as [Hc Hpre].
  rewrite Ascii.eqb_sym in Hc.
  cbn [append PyStr.replace_scan PyStr.exhausted].
  rewrite (startswith_other_head _ _ _ _ Hc). now rewrite IH.
Qed.

Lemma without_rest_once (pre post : string) :
  PyStr.mem_char "$" pre = false ->
  PyStr.mem_char "$" post = false ->
  without_rest (pre ++ "$rest" ++ post) = pre ++ post.
Proof.
  intros Hpre Hpost. unfold without_rest, PyStr.replace.
  rewrite (replace_scan_keeps "" pre _ Hpre). f_equal.
  cbn [append PyStr.replace_scan PyStr.exhausted].
  change (String "$" (String "r" (String "e" (String "s" (String "t" post)))))
    with ("$rest" ++ post).
  rewrite startswith_append. cbn [PyStr.spend length pred append].
  pose proof (replace_scan_keeps "" post "" Hpost) as H.
  cbn [PyStr.replace_scan] in H. now rewrite !append_empty_r in H.
Qed.

Lemma run_app (st : saved) (ops1 ops2 : list op) :
  run st (ops1 ++ ops2)%list = run (run st ops1) ops2.
Proof. apply fold_left_app. Qed.

Lemma save_keeps_source (st : saved) :
  redirect_type (obj (save st)) = redirect_type (obj st) /\
  from_url (obj (save st)) = from_url (obj st) /\
  row (save st) = Some (obj (save st)).
Proof.
  unfold save. cbn [obj row].
  destruct (_ && _); repeat split; reflexivity.
Qed.

(** A save of a rule that is not of type Exact, or whose source has no
    token, leaves the derived field as it was. *)
Lemma save_keeps_field (st : saved) :
  (redirect_type (obj st) =? "exact")
  && PyStr.contains "$rest" (from_url (obj st)) = false ->
  from_url_without_rest (obj (save st)) = from_url_without_rest (obj st).
Proof. intros Hcond. unfold save. cbn [obj]. now rewrite Hcond. Qed.

(** C7, as the code has it.  After a save at which the rule is of type
    Exact and its source contains [$rest], the derived field, in the
    instance and in its row, is the source with the token removed; in
    particular a source [pre$restpost] with no other [$] gives [prepost].
    The field is written by [save] alone: no assignment to another field
    changes it. *)
Theorem save_derives_field (st : saved) (ops : list op) :
  (redirect_type (obj (run st (ops ++ [Save]))) = "exact" ->
   PyStr.contains "$rest" (from_url (obj (run st (ops ++ [Save])))) = true ->
   from_url_without_rest (obj (run st (ops ++ [Save])))
   = Some (without_rest (from_url (obj (run st (ops ++ [Save]))))) /\
   row (run st (ops ++ [Save])) = Some (obj (run st (ops ++ [Save]))) /\
   (forall pre post,
      from_url (obj (run st (ops ++ [Save]))) = pre ++ "$rest" ++ post ->
      PyStr.mem_char "$" pre = false ->
      PyStr.mem_char "$" post = false ->
      from_url_without_rest (obj (run st (ops ++ [Save]))) = Some (pre ++ post))) /\
  (forall o, o <> Save ->
     from_url_without_rest (obj (apply_op st o))
     = from_url_without_rest (obj st)).
Proof.
  split.
  - rewrite run_app.
    change (run (run st ops) [Save]) with (save (run st ops)).
    set (before := run st ops).
    destruct (save_keeps_source before) as (Htype & Hfrom & Hrow).
    rewrite Htype, Hfrom. intros Hexact Hin.
    assert (Hfield : from_url_without_rest (obj (save before))
                     = Some (without_rest (from_url (obj before)))).
    { unfold save. cbn [obj]. rewrite Hexact, Hin. reflexivity. }
    split; [exact Hfield|]. split; [exact Hrow|].
    intros pre post Heq Hpre Hpost.
    rewrite Hfield, Heq. f_equal. now apply without_rest_once.
  - intros o Ho. destruct o; try reflexivity. congruence.
Qed.

(** The derived field keeps the value of an earlier source when the rule
    is saved again without a wildcard: the row then reads [/a/] next to
    the source [/b/]. *)
Lemma derived_field_stale :
  row edited_rule = Some (obj edited_rule) /\
  redirect_type (obj edited_rule) = "exact" /\
  from_url (obj edited_rule) = "/b/" /\
  from_url_without_rest (obj edited_rule) = Some "/a/" /\
  ~ consistent (obj edited_rule).
Proof.
  repeat split. intros [H | H]; discriminate H.
Qed.

(** ** Type tags outside the enumeration *)

Section Dispatch.

Variable resolve_path :
  Project -> option string -> option string -> string -> string.

(** Looking up [redirect_<type>] for a tag that is not one of the five
    finds the field [redirect_type] when the tag is [type], and nothing
    otherwise. *)
Lemma getattr_unknown (self : Redirect) :
  is_type_tag (redirect_type self) = false ->
  getattr resolve_path self ("redirect_" ++ redirect_type self) =
  if redirect_type self =? "type"
  then Return (Field (redirect_type self))
  else Raise (AttributeError ("redirect_" ++ redirect_type self)).
Proof.
  unfold is_type_tag, type_tags. cbn [TYPE_CHOICES map fst existsb].
  intros H. repeat (apply orb_false_iff in H as [? H]).
  unfold getattr.
  change "redirect_prefix" with ("redirect_" ++ "prefix").
  change "redirect_page" with ("redirect_" ++ "page").
  change "redirect_exact" with ("redirect_" ++ "exact").
  change "redirect_sphinx_html" with ("redirect_" ++ "sphinx_html").
  change "redirect_sphinx_htmldir" with ("redirect_" ++ "sphinx_htmldir").
  change "redirect_type" with ("redirect_" ++ "type").
  rewrite !append_same_prefix.
  repeat match goal with Hx : (_ =? _) = false |- _ => rewrite Hx; clear Hx end.
  reflexivity.
Qed.


End Dispatch.


(** ** The theorems at work *)

Lemma exact_without_wildcard_witness :
  redirect_type (rule "exact" "/old/" "") = "exact" /\
  PyStr.contains "$rest" (from_url (rule "exact" "/old/" "")) = false /\
  get_redirect_path compose_path (rule "exact" "/old/" "") "/page"
                    (Some "/old/") None None
  = Return (Some "").
Proof.
  split; [reflexivity|]. split; [reflexivity|].
  apply (exact_without_wildcard compose_path (rule "exact" "/old/" "") "/page"
                                (Some "/old/") None None);
    reflexivity.
Defined.

Lemma exact_with_wildcard_witness :
  redirect_type (rule "exact" "/docs/$rest" "/v2/") = "exact" /\
  PyStr.contains "$rest" (from_url (rule "exact" "/docs/$rest" "/v2/")) = true /\
  get_redirect_path compose_path (rule "exact" "/docs/$rest" "/v2/") "/api/foo"
                    (Some "/docs/api/foo") None None
  = Return (Some "/v2/api/foo") /\
  get_redirect_path compose_path (rule "exact" "/docs/$rest" "/v2/") "/api/foo"
                    (Some "/other/api/foo") None None
  = Return None.
Proof.
  split; [reflexivity|]. split; [reflexivity|]. split.
  - apply (exact_with_wildcard compose_path (rule "exact" "/docs/$rest" "/v2/")
             "/api/foo" "/docs/api/foo" None None);
      [reflexivity | reflexivity | discriminate | reflexivity].
  - apply (exact_with_wildcard compose_path (rule "exact" "/docs/$rest" "/v2/")
             "/api/foo" "/other/api/foo" None None);
      [reflexivity | reflexivity | discriminate | reflexivity].
Defined.

Lemma exact_leading_wildcard_witness :
  redirect_type (rule "exact" "$rest" "/v2") = "exact" /\
  PyStr.startswith (from_url (rule "exact" "$rest" "/v2")) "$rest" = true /\
  get_redirect_path compose_path (rule "exact" "$rest" "/v2") "/api/foo"
                    (Some "/en/latest/api/foo") None None
  = Return (Some "/v2/en/latest/api/foo").
Proof.
  split; [reflexivity|]. split; [reflexivity|].
  apply (exact_leading_wildcard compose_path (rule "exact" "$rest" "/v2")
           "/api/foo" "/en/latest/api/foo" None None);
    [reflexivity | reflexivity | discriminate].
Defined.

Lemma prefix_redirect_witness :
  redirect_type (rule "prefix" "/old/" "") = "prefix" /\
  get_redirect_path compose_path (rule "prefix" "/old/" "") "/old/page.html"
                    None None None
  = Return (Some "/en/latest/page.html") /\
  get_redirect_path compose_path (rule "prefix" "/old/" "") "/new/page.html"
                    None None None
  = Return None.
Proof.
  split; [reflexivity|]. split.
  - apply (prefix_redirect compose_path (rule "prefix" "/old/" "")
             "/old/page.html" None None None eq_refl).
    reflexivity.
  - apply (prefix_redirect compose_path (rule "prefix" "/old/" "")
             "/new/page.html" None None None eq_refl).
    reflexivity.
Defined.

Lemma page_redirect_witness :
  redirect_type (rule "page" "/install.html" "/tutorial/install.html") = "page" /\
  (exists n filename d,
     "/tutorial/install.html" = slashes n ++ filename /\
     PyStr.startswith filename "/" = false /\
     get_full_path compose_path (rule "page" "/install.html" "/tutorial/install.html")
                   filename None None true = Return d /\
     get_redirect_path compose_path
                       (rule "page" "/install.html" "/tutorial/install.html")
                       "/install.html" None None None
     = Return (Some d)) /\
  get_redirect_path compose_path
                    (rule "page" "/install.html" "/tutorial/install.html")
                    "/other.html" None None None
  = Return None.
Proof.
  split; [reflexivity|]. split.
  - apply (page_redirect compose_path
             (rule "page" "/install.html" "/tutorial/install.html")
             "/install.html" None None None eq_refl).
    reflexivity.
  - apply (page_redirect compose_path
             (rule "page" "/install.html" "/tutorial/install.html")
             "/other.html" None None None eq_refl).
    discriminate.
Defined.

Lemma sphinx_html_redirect_witness :
  redirect_type (rule "sphinx_html" "" "") = "sphinx_html" /\
  get_redirect_path compose_path (rule "sphinx_html" "" "") "/guide/"
                    None None None
  = Return (Some "/en/latest/guide.html") /\
  get_redirect_path compose_path (rule "sphinx_html" "" "") "/guide/index.html"
                    None None None
  = Return (Some "/en/latest/guide.html") /\
  get_redirect_path compose_path (rule "sphinx_html" "" "") "/guide/other.html"
                    None None None
  = Return None.
Proof.
  split; [reflexivity|]. split; [|split].
  - apply (proj1 (sphinx_html_redirect compose_path (rule "sphinx_html" "" "")
                                       None None None eq_refl) "guide/").
    reflexivity.
  - apply (proj1 (proj2
             (sphinx_html_redirect compose_path (rule "sphinx_html" "" "")
                                   None None None eq_refl)) "guide/index.html").
    reflexivity.
  - apply (proj1 (proj2 (proj2 (proj2 (proj2
             (sphinx_html_redirect compose_path (rule "sphinx_html" "" "")
                                   None None None eq_refl)))))
             "/guide/other.html");
      reflexivity.
Defined.

Lemma sphinx_htmldir_redirect_witness :
  redirect_type (rule "sphinx_htmldir" "" "") = "sphinx_htmldir" /\
  get_redirect_path compose_path (rule "sphinx_htmldir" "" "")
                    "/guide/install.html" None None None
  = Return (Some "/en/latest/guide/install/") /\
  get_redirect_path compose_path (rule "sphinx_htmldir" "" "")
                    "/guide.html/install.html" None None None
  = Return (Some "/en/latest/guide.html/install/") /\
  get_redirect_path compose_path (rule "sphinx_htmldir" "" "") "/guide/install"
                    None None None
  = Return None.
Proof.
  split; [reflexivity|]. split; [|split].
  - apply (proj1 (sphinx_htmldir_redirect compose_path
                    (rule "sphinx_htmldir" "" "") None None None eq_refl)
                 "guide/install.html").
    reflexivity.
  - apply (proj1 (sphinx_htmldir_redirect compose_path
                    (rule "sphinx_htmldir" "" "") None None None eq_refl)
                 "guide.html/install.html").
    reflexivity.
  - apply (proj1 (proj2 (proj2
             (sphinx_htmldir_redirect compose_path (rule "sphinx_htmldir" "" "")
                                      None None None eq_refl)))
             "/guide/install").
    reflexivity.
Defined.

Lemma save_derives_field_witness :
  redirect_type
    (obj (run {| obj := rule "exact" "/a/$rest" "/x/"; row := None |}
              ([] ++ [Save]))) = "exact" /\
  from_url_without_rest
    (obj (run {| obj := rule "exact" "/a/$rest" "/x/"; row := None |}
              ([] ++ [Save]))) = Some "/a/".
Proof.
  split; [reflexivity|].
  apply (proj1 (save_derives_field
                  {| obj := rule "exact" "/a/$rest" "/x/"; row := None |} [])
               eq_refl eq_refl
         : _ /\ _ /\ (forall pre post, _)) with (pre := "/a/") (post := "");
    reflexivity.
Defined.


Lemma get_full_path_cases_witness :
  is_http_url "https://example.org/docs/" = true /\
  get_full_path compose_path (rule "page" "/a" "https://example.org/docs/")
                "https://example.org/docs/" None None true
  = Return "https://example.org/docs/" /\
  get_full_path compose_path (rule "page" "/a" "https://example.org/docs/")
                "https://example.org/docs/" None None false
  = Return "/en/latest/https://example.org/docs/".
Proof.
  split; [reflexivity|]. split.
  - apply (get_full_path_cases compose_path
             (rule "page" "/a" "https://example.org/docs/")
             "https://example.org/docs/" None None).
    reflexivity.
  - apply (get_full_path_cases compose_path
             (rule "page" "/a" "https://example.org/docs/")
             "https://example.org/docs/" None None).
Defined.

(** * Further properties of the redirects *)

Lemma known_type_tag (t : string) :
  is_type_tag t = true ->
  t = "prefix" \/ t = "page" \/ t = "exact" \/
  t = "sphinx_html" \/ t = "sphinx_htmldir".
Proof.
  unfold is_type_tag, type_tags. cbn [TYPE_CHOICES map fst existsb].
  rewrite !orb_true_iff, !String.eqb_eq. intuition discriminate.
Qed.

Lemma portion_before_token (m post : string) :
  PyStr.mem_char "$" m = false ->
  portion_before "$rest" (m ++ "$rest" ++ post) = m.
Proof.
  induction m as [|c m IH]; intros Hm.
  - cbn [append portion_before].
    change (String "$" (String "r" (String "e" (String "s" (String "t" post)))))
      with ("$rest" ++ post).
    now rewrite startswith_append.
  - cbn [PyStr.mem_char] in Hm. apply orb_false_iff in Hm as [Hc Hm].
    rewrite Ascii.eqb_sym in Hc.
    change (String c m ++ "$rest" ++ post) with (String c (m ++ "$rest" ++ post)).
    cbn [portion_before].
    rewrite (startswith_other_head _ _ _ _ Hc). now rewrite IH.
Qed.

Lemma lstrip_after_slashes (n : nat) (url : string) :
  PyStr.startswith url "/" = false ->
  PyStr.lstrip "/" (slashes n ++ url) = url.
Proof.
  intros Hurl. induction n as [|n IH]; [|exact IH].
  destruct url as [|c url]; [reflexivity|].
  cbn [PyStr.startswith] in Hurl.
  rewrite startswith_empty, andb_true_r in Hurl.
  cbn [slashes append PyStr.lstrip PyStr.mem_char].
  rewrite Ascii.eqb_sym, Hurl. reflexivity.
Qed.

Lemma http_url_no_slash (url : string) :
  is_http_url url = true -> PyStr.startswith url "/" = false.
Proof.
  unfold is_http_url. destruct url as [|c url]; [discriminate|].
  cbn [PyStr.startswith]. rewrite startswith_empty, andb_true_r.
  destruct (Ascii.eqb_spec "/" c) as [<- | _]; [discriminate | reflexivity].
Qed.

(** Under its guard the substitution of [redirect_sphinx_htmldir] is the
    replacement of the ending, whatever the first character of the path
    is. *)
Lemma re_sub_html_guarded (c : ascii) (rest : string) :
  PyStr.endswith (String c rest) ".html" = true ->
  PyRe.re_sub ".html$" "/" rest = Return (replace_ending ".html" "/" rest).
Proof.
  intros H. apply endswith_cons in H as [H | H].
  - injection H as _ <-. reflexivity.
  - apply endswith_split in H as [stem ->].
    now rewrite re_sub_html, replace_ending_append.
Qed.

Lemma re_sub_slash_guarded (c : ascii) (rest : string) :
  PyStr.endswith (String c rest) "/" = true ->
  PyRe.re_sub ("/" ++ "$") ".html" rest = Return (replace_ending "/" ".html" rest).
Proof.
  intros H. apply endswith_cons in H as [H | H].
  - injection H as _ <-. reflexivity.
  - apply endswith_split in H as [stem ->].
    now rewrite re_sub_slash, replace_ending_append.
Qed.

Lemma re_sub_index_guarded (c : ascii) (rest : string) :
  PyStr.endswith (String c rest) "/index.html" = true ->
  PyRe.re_sub ("/index.html" ++ "$") ".html" rest
  = Return (replace_ending "/index.html" ".html" rest).
Proof.
  intros H. apply endswith_cons in H as [H | H].
  - injection H as _ <-. reflexivity.
  - apply endswith_split in H as [stem ->].
    now rewrite re_sub_index, replace_ending_append.
Qed.

Section MoreRedirects.

Variable resolve_path :
  Project -> option string -> option string -> string -> string.

(** The three methods that build their destination with the path
    resolver return what the resolver made of some filename, or nothing. *)
Lemma redirect_prefix_shape (self : Redirect) (path : string)
      (full_path language version_slug : option string) :
  redirect_prefix resolve_path self path full_path language version_slug
  = Return None \/
  exists filename,
    redirect_prefix resolve_path self path full_path language version_slug
    = Return (Some (resolve_path (project self) language version_slug filename)).
Proof.
  unfold redirect_prefix. destruct (PyStr.startswith _ _); [|now left].
  right. eexists. now rewrite get_full_path_value.
Qed.

Lemma redirect_sphinx_htmldir_value (self : Redirect) (path : string)
      (full_path language version_slug : option string) :
  redirect_sphinx_htmldir resolve_path self path full_path language version_slug
  = if PyStr.endswith path ".html"
    then Return (Some (resolve_path (project self) language version_slug
                         (replace_ending ".html" "/" (PyStr.slice_from 1 path))))
    else Return None.
Proof.
  unfold redirect_sphinx_htmldir.
  destruct (PyStr.endswith path ".html") eqn:H; [|reflexivity].
  destruct path as [|c rest]; [discriminate H|].
  cbn [PyStr.slice_from]. rewrite (re_sub_html_guarded c rest H).
  cbn [bind]. now rewrite get_full_path_value.
Qed.

Lemma redirect_sphinx_html_value (self : Redirect) (path : string)
      (full_path language version_slug : option string) :
  redirect_sphinx_html resolve_path self path full_path language version_slug
  = if PyStr.endswith path "/"
    then Return (Some (resolve_path (project self) language version_slug
                         (replace_ending "/" ".html" (PyStr.slice_from 1 path))))
    else if PyStr.endswith path "/index.html"
    then Return (Some (resolve_path (project self) language version_slug
                         (replace_ending "/index.html" ".html"
                                         (PyStr.slice_from 1 path))))
    else Return None.
Proof.
  unfold redirect_sphinx_html. cbn [sphinx_html_endings].
  destruct (PyStr.endswith path "/") eqn:H1.
  - destruct path as [|c rest]; [discriminate H1|].
    cbn [PyStr.slice_from]. rewrite (re_sub_slash_guarded c rest H1).
    cbn [bind]. now rewrite get_full_path_value.
  - destruct (PyStr.endswith path "/index.html") eqn:H2; [|reflexivity].
    destruct path as [|c rest]; [discriminate H2|].
    cbn [PyStr.slice_from]. rewrite (re_sub_index_guarded c rest H2).
    cbn [bind]. now rewrite get_full_path_value.
Qed.

Lemma redirect_exact_returns (self : Redirect) (path fp : string)
      (language version_slug : option string) :
  exists r, redirect_exact self path (Some fp) language version_slug = Return r.
Proof.
  destruct (String.eqb_spec fp (from_url self)) as [-> | Hne].
  - unfold redirect_exact. rewrite String.eqb_refl. eexists; reflexivity.
  - destruct (PyStr.contains "$rest" (from_url self)) eqn:Hin.
    + rewrite (redirect_exact_wildcard _ _ _ _ _ Hin Hne). cbv zeta.
      destruct (PyStr.startswith _ _); eexists; reflexivity.
    + unfold redirect_exact. apply String.eqb_neq in Hne.
      rewrite Hne, Hin. eexists; reflexivity.
Qed.

Lemma redirect_exact_without_full_path (self : Redirect) (path : string)
      (language version_slug : option string) :
  redirect_exact self path None language version_slug
  = if PyStr.contains "$rest" (from_url self)
    then Raise (AttributeError "startswith")
    else Return None.
Proof.
  unfold redirect_exact.
  destruct (PyStr.contains "$rest" (from_url self)) eqn:Hin; [|reflexivity].
  assert (Htoken : "$rest" <> "") by discriminate.
  unfold PyStr.split.
  destruct (split_once "$rest" (from_url self) "" Htoken Hin) as (post & Hs).
  rewrite Hs. reflexivity.
Qed.

(** X1. With a full path at hand, [get_redirect_path] returns, a
    destination or the absent value, exactly for the rules whose type
    tag is one of the five: no path, language or version makes a rule of
    a known type raise, and every other tag raises. *)
Theorem get_redirect_path_returns_iff (self : Redirect) (path fp : string)
        (language version_slug : option string) :
  (exists r, get_redirect_path resolve_path self path (Some fp)
                               language version_slug = Return r)
  <-> is_type_tag (redirect_type self) = true.
Proof.
  split.
  - intros [r Hr]. destruct (is_type_tag (redirect_type self)) eqn:Htag;
      [reflexivity|].
    unfold get_redirect_path in Hr.
    rewrite (getattr_unknown resolve_path self Htag) in Hr.
    destruct (redirect_type self =? "type"); discriminate Hr.
  - intros Htag.
    destruct (known_type_tag _ Htag) as [H | [H | [H | [H | H]]]].
    + rewrite (dispatch_prefix _ _ H).
      destruct (redirect_prefix_shape self path (Some fp) language version_slug)
        as [-> | [f ->]]; eexists; reflexivity.
    + rewrite (dispatch_page _ _ H). unfold redirect_page.
      destruct (path =? from_url self); [|eexists; reflexivity].
      rewrite get_full_path_value. eexists; reflexivity.
    + rewrite (dispatch_exact _ _ H). apply redirect_exact_returns.
    + rewrite (dispatch_sphinx_html _ _ H), redirect_sphinx_html_value.
      destruct (PyStr.endswith path "/"); [eexists; reflexivity|].
      destruct (PyStr.endswith path "/index.html"); eexists; reflexivity.
    + rewrite (dispatch_sphinx_htmldir _ _ H), redirect_sphinx_htmldir_value.
      destruct (PyStr.endswith path ".html"); eexists; reflexivity.
Qed.

(** X2. Called without a full path (its default, [None]), a rule of a
    known type raises exactly when it is an exact redirect with [$rest]
    in its source, and then an [AttributeError], whatever the path. *)
Theorem get_redirect_path_without_full_path (self : Redirect) (path : string)
        (language version_slug : option string) :
  is_type_tag (redirect_type self) = true ->
  ((exists e, get_redirect_path resolve_path self path None
                                language version_slug = Raise e)
   <-> redirect_type self = "exact" /\
       PyStr.contains "$rest" (from_url self) = true) /\
  (redirect_type self = "exact" ->
   PyStr.contains "$rest" (from_url self) = true ->
   get_redirect_path resolve_path self path None language version_slug
   = Raise (AttributeError "startswith")).
Proof.
  intros Htag.
  assert (Hexact : redirect_type self = "exact" ->
            get_redirect_path resolve_path self path None language version_slug
            = if PyStr.contains "$rest" (from_url self)
              then Raise (AttributeError "startswith") else Return None).
  { intros H. rewrite (dispatch_exact _ _ H).
    apply redirect_exact_without_full_path. }
  split; [split|].
  - intros [e He].
    destruct (known_type_tag _ Htag) as [H | [H | [H | [H | H]]]].
    + rewrite (dispatch_prefix _ _ H) in He.
      destruct (redirect_prefix_shape self path None language version_slug)
        as [E | [f E]]; rewrite E in He; discriminate He.
    + rewrite (dispatch_page _ _ H) in He. unfold redirect_page in He.
      destruct (path =? from_url self); [|discriminate He].
      rewrite get_full_path_value in He. discriminate He.
    + split; [exact H|]. rewrite (Hexact H) in He.
      destruct (PyStr.contains "$rest" (from_url self));
        [reflexivity | discriminate He].
    + rewrite (dispatch_sphinx_html _ _ H), redirect_sphinx_html_value in He.
      destruct (PyStr.endswith path "/"); [discriminate He|].
      destruct (PyStr.endswith path "/index.html"); discriminate He.
    + rewrite (dispatch_sphinx_htmldir _ _ H), redirect_sphinx_htmldir_value in He.
      destruct (PyStr.endswith path ".html"); discriminate He.
  - intros [H Hin]. rewrite (Hexact H), Hin. eexists; reflexivity.
  - intros H Hin. now rewrite (Hexact H), Hin.
Qed.

(** X3. In the source of an exact redirect only what stands before the
    first [$rest] counts.  With a source [m$restpost], [m] free of [$]:
    the source itself gives [to_url]; any other full path [m ++ rest]
    gives [to_url ++ rest]; a full path that does not start with [m] is
    no match; and [post] has no part in the last two. *)
Theorem exact_wildcard_tail_ignored (self : Redirect) (m post path fp : string)
        (language version_slug : option string) :
  redirect_type self = "exact" ->
  from_url self = m ++ "$rest" ++ post ->
  PyStr.mem_char "$" m = false ->
  (get_redirect_path resolve_path self path (Some (from_url self))
                     language version_slug
   = Return (Some (to_url self))) /\
  (fp <> from_url self ->
   forall rest, fp = m ++ rest ->
     get_redirect_path resolve_path self path (Some fp) language version_slug
     = Return (Some (to_url self ++ rest))) /\
  (fp <> from_url self ->
   PyStr.startswith fp m = false ->
   get_redirect_path resolve_path self path (Some fp) language version_slug
   = Return None).
Proof.
  intros Htype Hfrom Hm. rewrite (dispatch_exact _ _ Htype).
  assert (Hin : PyStr.contains "$rest" (from_url self) = true)
    by (rewrite Hfrom; apply contains_append).
  assert (Hmatch : portion_before "$rest" (from_url self) = m)
    by (rewrite Hfrom; now apply portion_before_token).
  split; [|split].
  - unfold redirect_exact. now rewrite String.eqb_refl.
  - intros Hne rest ->.
    rewrite (redirect_exact_wildcard _ _ _ _ _ Hin Hne). cbv zeta.
    now rewrite Hmatch, startswith_append, replace_once_at_head.
  - intros Hne Hstart.
    rewrite (redirect_exact_wildcard _ _ _ _ _ Hin Hne). cbv zeta.
    now rewrite Hmatch, Hstart.
Qed.

(** X4. The field [save] derives is the prefix [redirect_exact] matches
    on: for an exact redirect whose source is [m$rest], [m] free of [$],
    the saved [from_url_without_rest] is [m], and the rule redirects
    exactly the full paths, other than the source, that start with it. *)
Theorem derived_field_is_match (st : saved) (m path fp : string)
        (language version_slug : option string) :
  redirect_type (obj st) = "exact" ->
  from_url (obj st) = m ++ "$rest" ->
  PyStr.mem_char "$" m = false ->
  fp <> from_url (obj st) ->
  from_url_without_rest (obj (save st)) = Some m /\
  (PyStr.startswith fp m = true ->
   get_redirect_path resolve_path (obj (save st)) path (Some fp)
                     language version_slug
   = Return (Some (to_url (obj st) ++ PyStr.slice_from (length m) fp))) /\
  (PyStr.startswith fp m = false ->
   get_redirect_path resolve_path (obj (save st)) path (Some fp)
                     language version_slug
   = Return None).
Proof.
  intros Htype Hfrom Hm Hne.
  assert (Hin : PyStr.contains "$rest" (from_url (obj st)) = true).
  { rewrite Hfrom. rewrite <- (append_empty_r "$rest"). apply contains_append. }
  assert (Hsaved : obj (save st)
                   = set_from_url_without_rest (obj st) (Some m)).
  { unfold save. cbn [obj]. rewrite Htype, Hin. cbn [String.eqb andb].
    change (PyStr.replace (from_url (obj st)) "$rest" "" None)
      with (without_rest (from_url (obj st))).
    rewrite Hfrom.
    pose proof (without_rest_once m "" Hm eq_refl) as Hw.
    rewrite !append_empty_r in Hw. change ("$rest" ++ "") with "$rest" in Hw.
    now rewrite Hw. }
  rewrite Hsaved.
  assert (Htype' : redirect_type (set_from_url_without_rest (obj st) (Some m))
                   = "exact") by exact Htype.
  rewrite (dispatch_exact _ _ Htype').
  assert (Hmatch : portion_before "$rest" (from_url (obj st)) = m).
  { rewrite Hfrom. rewrite <- (append_empty_r "$rest").
    now apply portion_before_token. }
  pose proof (redirect_exact_wildcard
                (set_from_url_without_rest (obj st) (Some m)) path fp
                language version_slug Hin Hne) as Hex.
  cbv zeta in Hex. cbn [from_url to_url set_from_url_without_rest] in Hex.
  rewrite Hmatch in Hex.
  split; [reflexivity|]. split.
  - intros Hstart. rewrite Hex, Hstart.
    rewrite (startswith_split fp m Hstart) at 1.
    now rewrite replace_once_at_head.
  - intros Hstart. now rewrite Hex, Hstart.
Qed.

(** X5. A page redirect to another site: when [to_url], after any
    slashes at its front, begins with [http://] or [https://], the rule
    answers the matching path with that URL as it is; project, language
    and version have no part in it. *)
Theorem page_redirect_offsite (self : Redirect) (n : nat) (url : string)
        (full_path language version_slug : option string) :
  redirect_type self = "page" ->
  to_url self = slashes n ++ url ->
  is_http_url url = true ->
  get_redirect_path resolve_path self (from_url self) full_path
                    language version_slug
  = Return (Some url).
Proof.
  intros Htype Hto Hurl. rewrite (dispatch_page _ _ Htype).
  unfold redirect_page. rewrite String.eqb_refl, Hto.
  rewrite (lstrip_after_slashes n url (http_url_no_slash url Hurl)).
  rewrite get_full_path_value. cbn [andb bind]. now rewrite Hurl.
Qed.

(** X6. Prefix and Sphinx redirects never leave the site: whatever the
    path holds, also one whose remainder reads as an [http://] URL, the
    destination is what the path resolver made of some filename. *)
Theorem onsite_redirects_use_resolver (self : Redirect) (path : string)
        (full_path language version_slug : option string) :
  redirect_type self = "prefix" \/ redirect_type self = "sphinx_html" \/
  redirect_type self = "sphinx_htmldir" ->
  get_redirect_path resolve_path self path full_path language version_slug
  = Return None \/
  exists filename,
    get_redirect_path resolve_path self path full_path language version_slug
    = Return (Some (resolve_path (project self) language version_slug filename)).
Proof.
  intros [H | [H | H]].
  - rewrite (dispatch_prefix _ _ H). apply redirect_prefix_shape.
  - rewrite (dispatch_sphinx_html _ _ H), redirect_sphinx_html_value.
    destruct (PyStr.endswith path "/"); [right; eexists; reflexivity|].
    destruct (PyStr.endswith path "/index.html");
      [right; eexists; reflexivity | now left].
  - rewrite (dispatch_sphinx_htmldir _ _ H), redirect_sphinx_htmldir_value.
    destruct (PyStr.endswith path ".html");
      [right; eexists; reflexivity | now left].
Qed.

(** X7. [redirect_sphinx_htmldir] on every path, with or without a
    leading slash: a path that ends with [.html] loses its first
    character, whatever it is, and what is left has a [.html] at its end
    replaced by [/]; the wildcard dot of the pattern and the newline that
    [$] tolerates never show under the guard. *)
Theorem sphinx_htmldir_every_path (self : Redirect) (path : string)
        (full_path language version_slug : option string) :
  redirect_type self = "sphinx_htmldir" ->
  get_redirect_path resolve_path self path full_path language version_slug
  = if PyStr.endswith path ".html"
    then Return (Some (resolve_path (project self) language version_slug
                         (replace_ending ".html" "/" (PyStr.slice_from 1 path))))
    else Return None.
Proof.
  intros H. rewrite (dispatch_sphinx_htmldir _ _ H).
  apply redirect_sphinx_htmldir_value.
Qed.

(** X8. [redirect_sphinx_html] on every path: the ending [/] is tried
    first, then [/index.html]; the path loses its first character,
    whatever it is, and what is left has that ending, if it still has
    it, replaced by [.html]. *)
Theorem sphinx_html_every_path (self : Redirect) (path : string)
        (full_path language version_slug : option string) :
  redirect_type self = "sphinx_html" ->
  get_redirect_path resolve_path self path full_path language version_slug
  = if PyStr.endswith path "/"
    then Return (Some (resolve_path (project self) language version_slug
                         (replace_ending "/" ".html" (PyStr.slice_from 1 path))))
    else if PyStr.endswith path "/index.html"
    then Return (Some (resolve_path (project self) language version_slug
                         (replace_ending "/index.html" ".html"
                                         (PyStr.slice_from 1 path))))
    else Return None.
Proof.
  intros H. rewrite (dispatch_sphinx_html _ _ H).
  apply redirect_sphinx_html_value.
Qed.

Section Displayed.

Variable translate : string -> string.

(** X9. A prefix redirect has no use for [to_url]: whatever is assigned
    to it, the rule resolves every path as before and is displayed as
    before, with the root of the project's default version for target. *)
Theorem prefix_ignores_to_url (self : Redirect) (v path : string)
        (full_path lang version_slug : option string) :
  redirect_type self = "prefix" ->
  get_redirect_path resolve_path (set_to_url self v) path full_path
                    lang version_slug
  = get_redirect_path resolve_path self path full_path lang version_slug /\
  __str__ translate (set_to_url self v) = __str__ translate self /\
  get_from_to_url_display self
  = from_url self ++ " -> /" ++ language (project self) ++ "/"
             ++ default_version (project self) ++ "/".
Proof.
  intros Htype.
  assert (Htype' : redirect_type (set_to_url self v) = "prefix") by exact Htype.
  rewrite (dispatch_prefix _ _ Htype), (dispatch_prefix _ _ Htype').
  unfold __str__, get_from_to_url_display, get_redirect_type_display.
  cbn [redirect_type set_to_url]. rewrite Htype.
  repeat split.
Qed.

(** X10. The Sphinx redirects have no use for [from_url] or [to_url]:
    whatever is assigned to them, the rule resolves every path as
    before; its display shows neither. *)
Theorem sphinx_ignores_urls (self : Redirect) (f t path : string)
        (full_path language version_slug : option string) :
  redirect_type self = "sphinx_html" \/ redirect_type self = "sphinx_htmldir" ->
  get_redirect_path resolve_path (set_from_url (set_to_url self t) f) path
                    full_path language version_slug
  = get_redirect_path resolve_path self path full_path language version_slug /\
  __str__ translate (set_from_url (set_to_url self t) f)
  = __str__ translate self /\
  get_from_to_url_display self = "".
Proof.
  intros [Htype | Htype].
  - assert (Htype' : redirect_type (set_from_url (set_to_url self t) f)
                     = "sphinx_html") by exact Htype.
    rewrite (dispatch_sphinx_html _ _ Htype), (dispatch_sphinx_html _ _ Htype').
    unfold __str__, get_from_to_url_display, get_redirect_type_display.
    cbn [redirect_type set_to_url set_from_url]. rewrite Htype.
    repeat split.
  - assert (Htype' : redirect_type (set_from_url (set_to_url self t) f)
                     = "sphinx_htmldir") by exact Htype.
    rewrite (dispatch_sphinx_htmldir _ _ Htype),
            (dispatch_sphinx_htmldir _ _ Htype').
    unfold __str__, get_from_to_url_display, get_redirect_type_display.
    cbn [redirect_type set_to_url set_from_url]. rewrite Htype.
    repeat split.
Qed.

End Displayed.

End MoreRedirects.

(** What a save of an instance that was saved and not edited since
    leaves in place. *)
Lemma save_after_save (st s : saved) :
  redirect_type (obj s) = redirect_type (obj st) ->
  from_url (obj s) = from_url (obj st) ->
  from_url_without_rest (obj s) = from_url_without_rest (obj (save st)) ->
  redirect_type (obj (save s)) = redirect_type (obj st) /\
  from_url (obj (save s)) = from_url (obj st) /\
  from_url_without_rest (obj (save s)) = from_url_without_rest (obj (save st)).
Proof.
  intros Htype Hfrom Hfield.
  destruct (save_keeps_source s) as (Ht & Hf & _).
  rewrite Ht, Hf. split; [exact Htype|]. split; [exact Hfrom|].
  unfold save in *. cbn [obj] in *. rewrite Htype, Hfrom.
  destruct ((redirect_type (obj st) =? "exact")
            && PyStr.contains "$rest" (from_url (obj st)));
    [reflexivity | exact Hfield].
Qed.

(** X11. Saving again does not move the derived field: however many
    times a rule is saved again without being edited, its
    [from_url_without_rest] is what the first save made it; and a save
    leaves the type, the source and the destination of the rule as they
    were. *)
Theorem save_again_keeps_derived_field (st : saved) (n : nat) :
  from_url_without_rest (obj (run (save st) (repeat Save n)))
  = from_url_without_rest (obj (save st)) /\
  redirect_type (obj (save st)) = redirect_type (obj st) /\
  from_url (obj (save st)) = from_url (obj st) /\
  to_url (obj (save st)) = to_url (obj st).
Proof.
  destruct (save_keeps_source st) as (Htype & Hfrom & _).
  split; [|split; [exact Htype | split; [exact Hfrom|]]].
  - assert (Hinv : forall s,
              redirect_type (obj s) = redirect_type (obj st) ->
              from_url (obj s) = from_url (obj st) ->
              from_url_without_rest (obj s)
              = from_url_without_rest (obj (save st)) ->
              from_url_without_rest (obj (run s (repeat Save n)))
              = from_url_without_rest (obj (save st))).
    { induction n as [|n IH]; intros s Ht Hf Hd; [exact Hd|].
      cbn [repeat run fold_left apply_op].
      destruct (save_after_save st s Ht Hf Hd) as (Ht' & Hf' & Hd').
      exact (IH (save s) Ht' Hf' Hd'). }
    apply Hinv; [exact Htype | exact Hfrom | reflexivity].
  - unfold save. cbn [obj]. now destruct (_ && _).
Qed.

(** * Properties of the integrations *)

Module IntegrationFacts.
Import Integrations.

Lemma all_in_dict (keys : list string) (d : list (string * pyval)) :
  all_in keys (PDict d)
  = Done (forallb (fun k => existsb (fun kv => fst kv =? k) d) keys).
Proof.
  induction keys as [|k keys IH]; [reflexivity|].
  cbn [all_in contains forallb].
  destruct (existsb (fun kv => fst kv =? k) d); [exact IH | reflexivity].
Qed.

Lemma all_in_outcome (keys : list string) (v : pyval) :
  (exists b, all_in keys v = Done b) \/
  (exists message, all_in keys v = Failed (PyTypeError message)).
Proof.
  induction keys as [|k keys IH]; [left; now exists true|].
  cbn [all_in].
  destruct v; cbn [contains];
    try (right; eexists; reflexivity);
    match goal with
    | |- context [if ?b then _ else _] =>
        destruct b; [exact IH | left; now exists false]
    | |- context [match (if ?b then _ else _) with _ => _ end] => idtac
    | _ => idtac
    end.
  all: match goal with
       | |- context [existsb ?f ?l] =>
           destruct (existsb f l); [exact IH | left; now exists false]
       | |- context [PyStr.contains ?a ?b] =>
           destruct (PyStr.contains a b); [exact IH | left; now exists false]
       end.
Qed.

(** X12. [can_sync] never raises, whatever the provider data is: on a
    [dict] it tells whether every key is there, and on [None], a number
    or a boolean, where the test raises a [TypeError], it answers
    [False]. *)
Theorem can_sync_never_raises (keys : list string) (self : Integration) :
  (exists b, can_sync keys self = Done b) /\
  (forall d, provider_data self = PDict d ->
     can_sync keys self
     = Done (forallb (fun k => existsb (fun kv => fst kv =? k) d) keys)) /\
  (keys <> nil ->
   provider_data self = PNone \/
   (exists b, provider_data self = PBool b) \/
   (exists n, provider_data self = PInt n) ->
   can_sync keys self = Done false).
Proof.
  split; [|split].
  - unfold can_sync.
    destruct (all_in_outcome keys (provider_data self)) as [[b ->] | [m ->]];
      eexists; reflexivity.
  - intros d Hd. unfold can_sync. now rewrite Hd, all_in_dict.
  - intros Hkeys Hv. unfold can_sync.
    destruct keys as [|k keys]; [congruence|].
    destruct Hv as [-> | [[b ->] | [n ->]]]; reflexivity.
Qed.

(** X13. After [GenericAPIWebhook.save] the webhook has a token: the
    save never raises, a token that is there and is not [None] is kept
    with the rest of the provider data, and otherwise the provider data
    becomes the one entry of a new token, whatever it held; the instance
    is written with the provider data copied to the new field, and
    saving again keeps the token. *)
Theorem api_webhook_save_token (fresh again : string) (self : Integration) :
  exists st,
    GenericAPIWebhook_save fresh self = Done st /\
    (exists t, GenericAPIWebhook_token (instance st) = Done t /\ t <> PNone) /\
    (forall t, GenericAPIWebhook_token self = Done t -> t <> PNone ->
       provider_data (instance st) = provider_data self) /\
    (GenericAPIWebhook_token self = Done PNone \/
     (exists e, GenericAPIWebhook_token self = Failed e) ->
     provider_data (instance st) = PDict [("token", PStr fresh)]) /\
    provider_data_json (instance st) = provider_data (instance st) /\
    stored st = Some (instance st) /\
    GenericAPIWebhook_save again (instance st) = Done st.
Proof.
  unfold GenericAPIWebhook_save, GenericAPIWebhook_token.
  destruct self as [ty pd pdj sec]. cbn [provider_data].
  destruct pd as [| b | n | s | l | d]; cbn [get is_None];
    try (eexists; split; [reflexivity|];
         cbn [Integration_save instance stored provider_data provider_data_json
              set_provider_data set_provider_data_json get dict_get String.eqb
              Ascii.eqb Bool.eqb is_None];
         repeat split;
         [ eexists; split; [reflexivity | discriminate]
         | intros t Ht; discriminate Ht ]).
  destruct (dict_get d "token") eqn:Htoken; cbn [is_None];
    (eexists; split; [reflexivity|]);
    cbn [Integration_save instance stored provider_data provider_data_json
         set_provider_data set_provider_data_json get dict_get String.eqb
         Ascii.eqb Bool.eqb is_None];
    try rewrite Htoken; cbn [is_None]; repeat split;
    try (eexists; split; [reflexivity | discriminate]);
    try (intros t Ht Hn; congruence);
    try (intros [Ht | [e He]]; congruence).
Qed.

Lemma filter_true {A : Type} (l : list A) : filter (fun _ => true) l = l.
Proof. induction l as [|x l IH]; simpl; [reflexivity | now rewrite IH]. Qed.

Lemma filter_and {A : Type} (f g : A -> bool) (l : list A) :
  filter f (filter g l) = filter (fun x => g x && f x) l.
Proof.
  induction l as [|x l IH]; simpl; [reflexivity|].
  destruct (g x); simpl; [destruct (f x)|]; now rewrite IH.
Qed.

Lemma filter_same {A : Type} (f g : A -> bool) (l : list A) :
  (forall x, In x l -> f x = g x) -> filter f l = filter g l.
Proof.
  induction l as [|x l IH]; intros H; simpl; [reflexivity|].
  rewrite (H x (or_introl eq_refl)), IH; [reflexivity|].
  intros y Hy. apply H. now right.
Qed.

Lemma filter_none {A : Type} (f : A -> bool) (l : list A) :
  (forall x, In x l -> f x = false) -> filter f l = nil.
Proof.
  induction l as [|x l IH]; intros H; simpl; [reflexivity|].
  rewrite (H x (or_introl eq_refl)). apply IH. intros y Hy. apply H. now right.
Qed.

Lemma filter_all {A : Type} (f : A -> bool) (l : list A) :
  (forall x, In x l -> f x = true) -> filter f l = l.
Proof.
  intros H. rewrite <- (filter_true l) at 2. now apply filter_same.
Qed.

Lemma filter_length_permutation {A : Type} (f : A -> bool) (l l' : list A) :
  Permutation l l' ->
  List.length (filter f l) = List.length (filter f l').
Proof.
  induction 1 as [| x l l' _ IH | x y l | l l' l'' _ IH1 _ IH2]; simpl.
  - reflexivity.
  - destruct (f x); simpl; now rewrite IH.
  - destruct (f x), (f y); reflexivity.
  - now rewrite IH1.
Qed.

Lemma nodup_map_filter {A B : Type} (h : A -> B) (f : A -> bool) (l : list A) :
  NoDup (map h l) -> NoDup (map h (filter f l)).
Proof.
  induction l as [|x l IH]; simpl; intros H; [constructor|].
  inversion H as [|? ? Hx Hl]; subst.
  destruct (f x); [|now apply IH].
  simpl. constructor; [|now apply IH].
  intros Hin. apply Hx. apply in_map_iff in Hin as (y & Hy & Hin).
  apply filter_In in Hin as [Hin _]. apply in_map_iff. now exists y.
Qed.

Lemma nodup_map_inj {A B : Type} (h : A -> B) (l : list A) (x y : A) :
  NoDup (map h l) -> In x l -> In y l -> h x = h y -> x = y.
Proof.
  induction l as [|z l IH]; simpl; intros H Hx Hy Heq; [contradiction|].
  inversion H as [|? ? Hz Hl]; subst.
  destruct Hx as [-> | Hx], Hy as [-> | Hy].
  - reflexivity.
  - exfalso. apply Hz. rewrite Heq. now apply in_map.
  - exfalso. apply Hz. rewrite <- Heq. now apply in_map.
  - now apply IH.
Qed.

Lemma fold_delete (victims table : list HttpExchange) :
  fold_left delete victims table = filter (kept victims) table.
Proof.
  revert table; induction victims as [|v victims IH]; intros table.
  - symmetry. apply filter_true.
  - cbn [fold_left]. rewrite IH. unfold delete. rewrite filter_and.
    apply filter_same. intros x _. unfold kept. cbn [existsb].
    now rewrite negb_orb.
Qed.

Lemma kept_front (front back : list HttpExchange) :
  NoDup (map pk (front ++ back)) ->
  filter (kept back) (front ++ back) = front.
Proof.
  intros Hnd. rewrite filter_app.
  rewrite (filter_all (kept back) front), (filter_none (kept back) back).
  - apply app_nil_r.
  - intros x Hx. unfold kept. apply negb_false_iff, existsb_exists.
    exists x. split; [exact Hx | apply Nat.eqb_refl].
  - intros x Hx. unfold kept. apply negb_true_iff.
    destruct (existsb _ back) eqn:E; [|reflexivity].
    apply existsb_exists in E as (e & He & Heq). apply Nat.eqb_eq in Heq.
    assert (x = e).
    { apply (nodup_map_inj pk (front ++ back)); auto using in_or_app. }
    subst e. exfalso.
    apply in_split in Hx as (f1 & f2 & ->).
    rewrite <- app_assoc, map_app in Hnd. cbn [app map] in Hnd.
    apply NoDup_remove_2 in Hnd. apply Hnd.
    apply in_or_app. right. rewrite map_app. apply in_or_app. right.
    now apply in_map.
Qed.

(** X14. [delete_limit] keeps the newest exchanges of the object and no
    more than the limit: with unique keys, whatever order the database
    gives to exchanges of one date, the exchanges of the related object
    that are left are the first [limit] of the query, their number is
    the smaller of [limit] and what there was, and the exchanges of
    other objects are all still there. *)
Theorem delete_limit_bound
        (order_by : list HttpExchange -> list HttpExchange)
        (table : list HttpExchange) (related_object : related) (limit : nat) :
  NoDup (map pk table) ->
  (forall l, Permutation (order_by l) l) ->
  List.length (filter (relates_to related_object)
                      (delete_limit order_by table related_object limit))
  = Nat.min limit (List.length (filter (relates_to related_object) table)) /\
  (forall e,
     In e (filter (relates_to related_object)
                  (delete_limit order_by table related_object limit))
     <-> In e (firstn limit
                 (order_by (filter (relates_to related_object) table)))) /\
  filter (fun e => negb (relates_to related_object e))
         (delete_limit order_by table related_object limit)
  = filter (fun e => negb (relates_to related_object e)) table.
Proof.
  intros Hnd Hperm. unfold delete_limit. cbv zeta.
  set (mine := filter (relates_to related_object) table).
  set (queryset := order_by mine).
  set (victims := skipn limit queryset).
  rewrite fold_delete.
  assert (Hq : Permutation queryset mine) by apply Hperm.
  assert (Hndq : NoDup (map pk queryset)).
  { apply (Permutation_NoDup (l := map pk mine)).
    - apply Permutation_map, Permutation_sym, Hq.
    - now apply nodup_map_filter. }
  assert (Hfront : filter (kept victims) queryset = firstn limit queryset).
  { unfold victims.
    pose proof (kept_front (firstn limit queryset) (skipn limit queryset)) as H.
    rewrite (firstn_skipn limit queryset) in H. now apply H. }
  assert (Hswap : filter (relates_to related_object) (filter (kept victims) table)
                  = filter (kept victims) mine).
  { unfold mine. rewrite !filter_and. apply filter_same.
    intros x _. apply andb_comm. }
  split; [|split].
  - rewrite Hswap.
    rewrite <- (filter_length_permutation (kept victims) queryset mine Hq).
    rewrite Hfront, length_firstn.
    now rewrite (Permutation_length Hq).
  - intros e. rewrite Hswap, <- Hfront, !filter_In.
    split; intros [Hin Hk]; (split; [|exact Hk]).
    + apply (Permutation_in e (Permutation_sym Hq) Hin).
    + apply (Permutation_in e Hq Hin).
  - rewrite filter_and. apply filter_same. intros x Hx.
    destruct (relates_to related_object x) eqn:Hrel;
      [now rewrite andb_false_r|].
    rewrite andb_true_r. cbn [negb]. unfold kept. apply negb_true_iff.
    destruct (existsb _ victims) eqn:E; [|reflexivity].
    apply existsb_exists in E as (e & He & Heq). apply Nat.eqb_eq in Heq.
    assert (Hmine : In e mine).
    { apply (Permutation_in e Hq).
      rewrite <- (firstn_skipn limit queryset). apply in_or_app. now right. }
    apply filter_In in Hmine as [Hin Hre].
    assert (x = e) by (apply (nodup_map_inj pk table); assumption).
    subst e. congruence.
Qed.

Lemma insert_by_date_permutation (e : HttpExchange) (l : list HttpExchange) :
  Permutation (insert_by_date e l) (e :: l).
Proof.
  induction l as [|x l IH]; simpl; [reflexivity|].
  destruct (date x <? date e)%nat; [reflexivity|].
  rewrite IH. apply perm_swap.
Qed.

Lemma newest_first_permutation (l : list HttpExchange) :
  Permutation (newest_first l) l.
Proof.
  induction l as [|x l IH]; simpl; [reflexivity|].
  unfold newest_first in *. cbn [fold_right].
  rewrite insert_by_date_permutation. now constructor.
Qed.

End IntegrationFacts.

(** ** The further theorems at work *)

Lemma get_redirect_path_without_full_path_witness :
  is_type_tag (redirect_type (rule "exact" "/docs/$rest" "/v2/")) = true /\
  get_redirect_path compose_path (rule "exact" "/docs/$rest" "/v2/") "/api"
                    None None None
  = Raise (AttributeError "startswith").
Proof.
  split; [reflexivity|].
  apply (get_redirect_path_without_full_path compose_path
           (rule "exact" "/docs/$rest" "/v2/") "/api" None None eq_refl);
    reflexivity.
Defined.

Lemma exact_wildcard_tail_ignored_witness :
  redirect_type (rule "exact" "/docs/$rest/tail" "/v2/") = "exact" /\
  PyStr.mem_char "$" "/docs/" = false /\
  get_redirect_path compose_path (rule "exact" "/docs/$rest/tail" "/v2/") "/api"
                    (Some "/docs/api/foo") None None
  = Return (Some "/v2/api/foo").
Proof.
  split; [reflexivity|]. split; [reflexivity|].
  apply (proj1 (proj2
           (exact_wildcard_tail_ignored compose_path
              (rule "exact" "/docs/$rest/tail" "/v2/") "/docs/" "/tail" "/api"
              "/docs/api/foo" None None eq_refl eq_refl eq_refl)));
    [discriminate | reflexivity].
Defined.

Lemma derived_field_is_match_witness :
  from_url_without_rest
    (obj (save {| obj := rule "exact" "/docs/$rest" "/v2/"; row := None |}))
  = Some "/docs/" /\
  get_redirect_path compose_path
    (obj (save {| obj := rule "exact" "/docs/$rest" "/v2/"; row := None |}))
    "/api" (Some "/docs/api/foo") None None
  = Return (Some "/v2/api/foo").
Proof.
  assert (Hne : "/docs/api/foo" <> "/docs/$rest") by discriminate.
  split.
  - apply (derived_field_is_match compose_path
             {| obj := rule "exact" "/docs/$rest" "/v2/"; row := None |}
             "/docs/" "/api" "/docs/api/foo" None None
             eq_refl eq_refl eq_refl Hne).
  - apply (derived_field_is_match compose_path
             {| obj := rule "exact" "/docs/$rest" "/v2/"; row := None |}
             "/docs/" "/api" "/docs/api/foo" None None
             eq_refl eq_refl eq_refl Hne).
    reflexivity.
Defined.

Lemma page_redirect_offsite_witness :
  redirect_type (rule "page" "/old.html" "//https://example.org/new") = "page" /\
  is_http_url "https://example.org/new" = true /\
  get_redirect_path compose_path (rule "page" "/old.html" "//https://example.org/new")
                    "/old.html" None (Some "fr") None
  = Return (Some "https://example.org/new").
Proof.
  split; [reflexivity|]. split; [reflexivity|].
  apply (page_redirect_offsite compose_path
           (rule "page" "/old.html" "//https://example.org/new")
           2 "https://example.org/new" None (Some "fr") None);
    reflexivity.
Defined.

Lemma onsite_redirects_use_resolver_witness :
  get_redirect_path compose_path (rule "prefix" "/go/" "") "/go/http://example.org"
                    None None None
  = Return None \/
  exists filename,
    get_redirect_path compose_path (rule "prefix" "/go/" "")
                      "/go/http://example.org" None None None
    = Return (Some (compose_path docs None None filename)).
Proof.
  apply (onsite_redirects_use_resolver compose_path (rule "prefix" "/go/" "")
           "/go/http://example.org" None None None).
  left. reflexivity.
Defined.

Lemma sphinx_htmldir_every_path_witness :
  get_redirect_path compose_path (rule "sphinx_htmldir" "" "") "x.html"
                    None None None
  = Return (Some "/en/latest//").
Proof.
  apply (sphinx_htmldir_every_path compose_path (rule "sphinx_htmldir" "" "")
           "x.html" None None None eq_refl).
Defined.

Lemma sphinx_html_every_path_witness :
  get_redirect_path compose_path (rule "sphinx_html" "" "") "/index.html"
                    None None None
  = Return (Some "/en/latest/index.html").
Proof.
  apply (sphinx_html_every_path compose_path (rule "sphinx_html" "" "")
           "/index.html" None None None eq_refl).
Defined.

Lemma prefix_ignores_to_url_witness :
  __str__ (fun s => s) (set_to_url (rule "prefix" "/old/" "") "/elsewhere/")
  = __str__ (fun s => s) (rule "prefix" "/old/" "") /\
  get_from_to_url_display (rule "prefix" "/old/" "") = "/old/ -> /en/latest/".
Proof.
  split.
  - apply (prefix_ignores_to_url compose_path (fun s => s)
             (rule "prefix" "/old/" "") "/elsewhere/" "/old/a" None None None
             eq_refl).
  - apply (prefix_ignores_to_url compose_path (fun s => s)
             (rule "prefix" "/old/" "") "/elsewhere/" "/old/a" None None None
             eq_refl).
Defined.

Lemma sphinx_ignores_urls_witness :
  get_redirect_path compose_path
    (set_from_url (set_to_url (rule "sphinx_html" "" "") "/b") "/a")
    "/guide/" None None None
  = get_redirect_path compose_path (rule "sphinx_html" "" "") "/guide/"
                      None None None.
Proof.
  apply (sphinx_ignores_urls compose_path (fun s => s)
           (rule "sphinx_html" "" "") "/a" "/b" "/guide/" None None None).
  left. reflexivity.
Defined.

Lemma delete_limit_bound_witness :
  List.length
    (filter (Integrations.relates_to Integrations.webhook)
            (Integrations.delete_limit Integrations.newest_first
               Integrations.exchanges Integrations.webhook 2))
  = 2.
Proof.
  apply (IntegrationFacts.delete_limit_bound Integrations.newest_first
           Integrations.exchanges Integrations.webhook 2).
  - repeat constructor; simpl; intuition discriminate.
  - exact IntegrationFacts.newest_first_permutation.
Defined.
